(** * Budget-Wise: recurring transactions and budget bookkeeping

    A shallow embedding of

    - the migration that creates [public.recurring_transactions] together
      with the PL/pgSQL functions [calculate_next_occurrence] and
      [process_recurring_transactions];
    - the parts of the [useBudgetData] hook that add and delete
      transactions, keep budgets and goals, import files and create and
      edit recurring templates.

    Conventions.  A SQL [DATE] is a proleptic Gregorian calendar date
    (astronomical year, month, day).  [date + interval] follows
    PostgreSQL: the date is taken to a timestamp, the month part of the
    interval is added first with the day of month clamped to the length
    of the target month, then the day part is added; every step raises
    once it leaves the range of timestamps, and an interval field is a
    32-bit integer.  A [NUMERIC] is an exact decimal; storing it in a
    [DECIMAL(10,2)] column rounds it to two places.  A JS [number] of the
    transaction, budget and import code is an IEEE 754 binary64 value;
    the amounts of the goals page are whole hundredths. *)

From Stdlib Require Import ZArith List String Bool Lia SpecFloat.
Import ListNotations.
Local Open Scope Z_scope.

(* ================================================================== *)
(** ** Calendar dates *)

Module Calendar.

Record date : Type := mkdate { year : Z; month : Z; day : Z }.

Definition isleap (y : Z) : bool :=
  (y mod 4 =? 0) && (negb (y mod 100 =? 0) || (y mod 400 =? 0)).

Definition days_in_month (y m : Z) : Z :=
  if m =? 2 then (if isleap y then 29 else 28)
  else if (m =? 4) || (m =? 6) || (m =? 9) || (m =? 11) then 30
  else 31.

Definition valid_dateb (d : date) : bool :=
  (1 <=? month d) && (month d <=? 12) &&
  (1 <=? day d) && (day d <=? days_in_month (year d) (month d)).

Definition valid_date (d : date) : Prop :=
  1 <= month d <= 12 /\ 1 <= day d <= days_in_month (year d) (month d).

(** Dates are ordered chronologically, that is lexicographically. *)
Definition date_compare (a b : date) : comparison :=
  match year a ?= year b with
  | Eq => match month a ?= month b with
          | Eq => day a ?= day b
          | c => c
          end
  | c => c
  end.

Definition date_ltb (a b : date) : bool :=
  match date_compare a b with Lt => true | _ => false end.

Definition date_leb (a b : date) : bool :=
  match date_compare a b with Gt => false | _ => true end.

Definition date_eqb (a b : date) : bool :=
  match date_compare a b with Eq => true | _ => false end.

Definition date_lt (a b : date) : Prop := date_ltb a b = true.
Definition date_le (a b : date) : Prop := date_leb a b = true.

Definition next_day (d : date) : date :=
  if day d <? days_in_month (year d) (month d)
  then mkdate (year d) (month d) (day d + 1)
  else if month d <? 12
       then mkdate (year d) (month d + 1) 1
       else mkdate (year d + 1) 1 1.

Definition prev_day (d : date) : date :=
  if 1 <? day d
  then mkdate (year d) (month d) (day d - 1)
  else if 1 <? month d
       then mkdate (year d) (month d - 1) (days_in_month (year d) (month d - 1))
       else mkdate (year d - 1) 12 31.

(** Day arithmetic: [n] days after [d] (before it, when [n] is negative). *)
Definition add_days (d : date) (n : Z) : date :=
  if 0 <=? n
  then Nat.iter (Z.to_nat n) next_day d
  else Nat.iter (Z.to_nat (- n)) prev_day d.

(** Month arithmetic: the month counter is advanced by [n], the year is
    carried, and a day past the end of the target month is clamped to the
    last day of that month. *)
Definition add_months (d : date) (n : Z) : date :=
  let t := 12 * year d + (month d - 1) + n in
  let y := t / 12 in
  let m := t mod 12 + 1 in
  mkdate y m (Z.min (day d) (days_in_month y m)).

(** The days PostgreSQL's [DATE] type holds: 4713 BC to 5874897 AD, from
    Julian day zero on. *)
Definition in_date_range (d : date) : bool :=
  date_leb (mkdate (-4713) 11 24) d && date_leb d (mkdate 5874897 12 31).

(** The days PostgreSQL's [TIMESTAMP] type holds: up to 294276 AD. *)
Definition in_timestamp_range (d : date) : bool :=
  date_leb (mkdate (-4713) 11 24) d && date_leb d (mkdate 294276 12 31).

End Calendar.

Import Calendar.

(* ================================================================== *)
(** ** Exact decimals *)

Module Numeric.

(** A [NUMERIC] value: the decimal [coefficient * 10 ^ (- scale)].  The
    type's [NaN] and infinities, which no JSON number spells, are not
    among these values. *)
Record numeric : Type := mknumeric { coefficient : Z; scale : nat }.

(** [n / d] rounded to the nearest integer, ties away from zero; [d] is
    positive. *)
Definition round_half_away (n d : Z) : Z :=
  Z.sgn n * ((2 * Z.abs n + d) / (2 * d)).

(** The value rounded to two decimal places, in hundredths: what a
    column of scale 2 stores. *)
Definition to_scale_2 (a : numeric) : Z :=
  if (scale a <=? 2)%nat
  then coefficient a * 10 ^ Z.of_nat (2 - scale a)
  else round_half_away (coefficient a) (10 ^ Z.of_nat (scale a - 2)).

(** A whole number of hundredths. *)
Definition cents (c : Z) : numeric := mknumeric c 2.

End Numeric.

(* ================================================================== *)
(** ** The migration: tables and stored procedures *)

Module Migration.

Definition uuid : Type := string.
Definition timestamptz : Type := Z.
Definition numeric : Type := Numeric.numeric.

(** Errors the store raises in the statements modelled below. *)
Inductive sqlstate : Type :=
| syntax_error                 (* 42601 *)
| numeric_value_out_of_range   (* 22003 *)
| datetime_field_overflow      (* 22008 *)
| interval_field_overflow      (* 22015 *)
| not_null_violation           (* 23502 *)
| check_violation              (* 23514 *)
| unique_violation.            (* 23505 *)

Inductive outcome (A : Type) : Type :=
| Done (a : A)
| Raised (e : sqlstate).
Arguments Done {A} a.
Arguments Raised {A} e.

(** An error ends the evaluation of an expression or statement list. *)
Definition and_then {A B : Type} (x : outcome A) (k : A -> outcome B) : outcome B :=
  match x with
  | Done a => k a
  | Raised e => Raised e
  end.

(** An [INTEGER]. *)
Definition int4 (z : Z) : bool := (-2147483648 <=? z) && (z <=? 2147483647).

(** A PostgreSQL interval without a time part. *)
Record interval : Type := mkinterval { months : Z; days : Z }.

(** [(n || ' days')::INTERVAL] and its three siblings: weeks are kept as
    days and years as months, and both fields are 32-bit integers. *)
Definition interval_field (v : Z) (mk : Z -> interval) : outcome interval :=
  if int4 v then Done (mk v) else Raised interval_field_overflow.

Definition interval_days (n : Z) : outcome interval :=
  interval_field n (fun v => mkinterval 0 v).
Definition interval_weeks (n : Z) : outcome interval :=
  interval_field (7 * n) (fun v => mkinterval 0 v).
Definition interval_months (n : Z) : outcome interval :=
  interval_field n (fun v => mkinterval v 0).
Definition interval_years (n : Z) : outcome interval :=
  interval_field (12 * n) (fun v => mkinterval v 0).

(** A day as a timestamp, when there is one. *)
Definition timestamp_of (d : date) : outcome date :=
  if valid_dateb d && in_timestamp_range d then Done d
  else Raised datetime_field_overflow.

(** [date + interval], read back as a [DATE]. *)
Definition date_pl_interval (d : date) (i : interval) : outcome date :=
  and_then (timestamp_of d) (fun d0 =>
  and_then (if months i =? 0 then Done d0
            else timestamp_of (add_months d0 (months i))) (fun d1 =>
  if days i =? 0 then Done d1 else timestamp_of (add_days d1 (days i)))).

(** The day [date + interval] names when no step leaves the range:
    months first, then days. *)
Definition shift (d : date) (i : interval) : date :=
  let d1 := if months i =? 0 then d else add_months d (months i) in
  if days i =? 0 then d1 else add_days d1 (days i).

(** A row of [public.recurring_transactions]. *)
Record recurring_transaction : Type := mkrecurring {
  id : uuid;
  user_id : uuid;
  name : string;
  type : string;
  amount : numeric;
  category : string;
  description : option string;
  frequency : string;
  frequency_value : Z;
  start_date : date;
  end_date : option date;
  next_occurrence : date;
  is_active : bool;
  created_at : timestamptz;
  updated_at : timestamptz
}.

(** The columns the scan supplies when it inserts into
    [public.transactions]; [id] and [created_at] take their defaults.
    [t_amount] is a [DECIMAL(10,2)], in hundredths. *)
Record transaction : Type := mktransaction {
  t_user_id : uuid;
  t_type : string;
  t_amount : Z;
  t_category : string;
  t_description : string;
  t_date : date
}.

Record database : Type := mkdb {
  transactions : list transaction;
  recurring_transactions : list recurring_transaction
}.

(** [CHECK (type IN ('income', 'expense'))] *)
Definition type_check (t : string) : bool :=
  String.eqb t "income" || String.eqb t "expense".

(** [CHECK (frequency IN ('daily', 'weekly', 'monthly', 'yearly'))] *)
Definition frequency_check (f : string) : bool :=
  String.eqb f "daily" || String.eqb f "weekly" ||
  String.eqb f "monthly" || String.eqb f "yearly".

(** [DECIMAL(10,2)]: at most eight digits before the decimal point. *)
Definition fits_decimal_10_2 (a : Z) : bool := Z.abs a <? 10000000000.

(** The names of the parameters of [calculate_next_occurrence], in the
    order of its declaration. *)
Definition calculate_next_occurrence_parameters : list string :=
  ["current_date"; "frequency"; "frequency_value"]%string.

(** [current_date] is a reserved word of PostgreSQL. *)
Definition reserved_word (w : string) : bool := String.eqb w "current_date".

(** [CREATE OR REPLACE FUNCTION public.calculate_next_occurrence(...)]: a
    reserved word cannot name a parameter unless it is quoted. *)
Definition create_calculate_next_occurrence : outcome unit :=
  if existsb reserved_word calculate_next_occurrence_parameters
  then Raised syntax_error
  else Done tt.

(** [public.calculate_next_occurrence(current_date DATE, frequency TEXT,
    frequency_value INTEGER) RETURNS DATE], as a store that holds the
    function runs its body.

    In the body the unquoted word [current_date] reads the day of the
    call, here [CURRENT_DATE], and not the first parameter, which the
    body therefore never uses.  The first two tests are the coercion of
    the arguments to the parameter types [DATE] and [INTEGER]. *)
Definition calculate_next_occurrence
    (CURRENT_DATE : date)
    (current_date : date) (frequency : string) (frequency_value : Z)
  : outcome date :=
  if negb (valid_dateb current_date && in_date_range current_date)
  then Raised datetime_field_overflow
  else if negb (int4 frequency_value) then Raised numeric_value_out_of_range
  else if String.eqb frequency "daily" then
    and_then (interval_days frequency_value) (date_pl_interval CURRENT_DATE)
  else if String.eqb frequency "weekly" then
    and_then (interval_weeks frequency_value) (date_pl_interval CURRENT_DATE)
  else if String.eqb frequency "monthly" then
    and_then (interval_months frequency_value) (date_pl_interval CURRENT_DATE)
  else if String.eqb frequency "yearly" then
    and_then (interval_years frequency_value) (date_pl_interval CURRENT_DATE)
  else
    Done CURRENT_DATE.

(** The [WHERE] clause of the scan's cursor query. *)
Definition is_due (today : date) (r : recurring_transaction) : bool :=
  is_active r
  && date_leb (next_occurrence r) today
  && match end_date r with
     | None => true
     | Some e => date_leb (next_occurrence r) e
     end.

(** The row the scan's [INSERT] stores: the [VALUES] list, with the
    [NUMERIC] amount rounded to the scale of the [DECIMAL(10,2)] column. *)
Definition materialize (rec : recurring_transaction) : transaction :=
  {| t_user_id := user_id rec;
     t_type := type rec;
     t_amount := Numeric.to_scale_2 (amount rec);
     t_category := category rec;
     t_description := match description rec with
                      | Some s => s
                      | None => name rec
                      end;
     t_date := next_occurrence rec |}.

(** [INSERT INTO public.transactions]: the rounded value must fit the
    column's precision, then the row constraints are checked. *)
Definition insert_transaction
    (tbl : list transaction) (v : transaction) : outcome (list transaction) :=
  if negb (fits_decimal_10_2 (t_amount v)) then Raised numeric_value_out_of_range
  else if negb (type_check (t_type v)) then Raised check_violation
  else Done (tbl ++ [v]).

Definition set_next_occurrence
    (r : recurring_transaction) (d : date) (now : timestamptz)
  : recurring_transaction :=
  {| id := id r; user_id := user_id r; name := name r; type := type r;
     amount := amount r; category := category r;
     description := description r; frequency := frequency r;
     frequency_value := frequency_value r; start_date := start_date r;
     end_date := end_date r; next_occurrence := d;
     is_active := is_active r; created_at := created_at r;
     updated_at := now |}.

(** [UPDATE public.recurring_transactions SET next_occurrence =
    calculate_next_occurrence(rec.next_occurrence, rec.frequency,
    rec.frequency_value), updated_at = now() WHERE id = rec.id], run on
    the day [today].  The [SET] expressions are evaluated for the rows
    the [WHERE] clause keeps. *)
Definition update_next_occurrence
    (now : timestamptz) (today : date) (rec : recurring_transaction)
    (tbl : list recurring_transaction) : outcome (list recurring_transaction) :=
  if existsb (fun r => String.eqb (id r) (id rec)) tbl then
    and_then
      (calculate_next_occurrence today
         (next_occurrence rec) (frequency rec) (frequency_value rec))
      (fun d =>
         Done (map (fun r => if String.eqb (id r) (id rec)
                             then set_next_occurrence r d now
                             else r)
                   tbl))
  else Done tbl.

(** One iteration of the [FOR rec IN ... LOOP] body. *)
Definition loop_body
    (now : timestamptz) (today : date)
    (st : database * Z) (rec : recurring_transaction)
  : outcome (database * Z) :=
  let (db, processed_count) := st in
  and_then (insert_transaction (transactions db) (materialize rec)) (fun txs =>
  and_then (update_next_occurrence now today rec (recurring_transactions db))
    (fun tbl => Done (mkdb txs tbl, processed_count + 1))).

(** The loop runs over the rows the query returned when it was opened;
    an error leaves the loop at once. *)
Fixpoint for_loop
    (now : timestamptz) (today : date) (rows : list recurring_transaction)
    (st : database * Z) : outcome (database * Z) :=
  match rows with
  | [] => Done st
  | rec :: rest =>
      match loop_body now today st rec with
      | Raised e => Raised e
      | Done st' => for_loop now today rest st'
      end
  end.

(** [public.process_recurring_transactions()], called at time [now] on the
    day [today].  The function has no exception handler: an error raised
    inside it reaches the caller, and the store discards what the call
    had written. *)
Definition process_recurring_transactions
    (now : timestamptz) (today : date) (db : database)
  : database * outcome Z :=
  match for_loop now today (filter (is_due today) (recurring_transactions db)) (db, 0) with
  | Done (db', processed_count) => (db', Done processed_count)
  | Raised e => (db, Raised e)
  end.

(** Vocabulary for the statements about the scan. *)

(** The insert of [v] into [public.transactions] is accepted. *)
Definition insertable (v : transaction) : bool :=
  fits_decimal_10_2 (t_amount v) && type_check (t_type v).

(** The calculator, called for [r] on the day [today], returns a date. *)
Definition reschedulable (today : date) (r : recurring_transaction) : bool :=
  match calculate_next_occurrence today
          (next_occurrence r) (frequency r) (frequency_value r) with
  | Done _ => true
  | Raised _ => false
  end.

(** Both statements of the loop body go through for [r]. *)
Definition processable (today : date) (r : recurring_transaction) : bool :=
  insertable (materialize r) && reschedulable today r.

(** The templates the scan's query returns. *)
Definition due_rows (today : date) (db : database) : list recurring_transaction :=
  filter (is_due today) (recurring_transactions db).

(** What the loop body's [UPDATE] for [rec] makes of a row [r]. *)
Definition reschedule
    (now : timestamptz) (today : date) (rec r : recurring_transaction)
  : recurring_transaction :=
  match calculate_next_occurrence today
          (next_occurrence rec) (frequency rec) (frequency_value rec) with
  | Done d => if String.eqb (id r) (id rec) then set_next_occurrence r d now else r
  | Raised _ => r
  end.

(** A template as the loop body's [UPDATE] leaves it on the day [today]. *)
Definition advance (now : timestamptz) (today : date) (r : recurring_transaction)
  : recurring_transaction :=
  match calculate_next_occurrence today
          (next_occurrence r) (frequency r) (frequency_value r) with
  | Done d => set_next_occurrence r d now
  | Raised _ => r
  end.

(** Rows that agree except for the two columns the scan writes. *)
Definition same_template (x r : recurring_transaction) : Prop :=
  forall d t, set_next_occurrence x d t = set_next_occurrence r d t.

(** [SELECT * FROM public.recurring_transactions WHERE id = rid] *)
Definition find_template (rid : uuid) (tbl : list recurring_transaction)
  : option recurring_transaction :=
  find (fun r => String.eqb (id r) rid) tbl.




(** *** The store's side of the client's calls on [recurring_transactions] *)

(** A [DATE] column only accepts calendar dates. *)
Definition dates_ok (r : recurring_transaction) : bool :=
  valid_dateb (start_date r)
  && valid_dateb (next_occurrence r)
  && match end_date r with None => true | Some e => valid_dateb e end.

(** ... within the range of the type. *)
Definition dates_in_range (r : recurring_transaction) : bool :=
  in_date_range (start_date r)
  && in_date_range (next_occurrence r)
  && match end_date r with None => true | Some e => in_date_range e end.

(** The two [CHECK] constraints of the table. *)
Definition row_check (r : recurring_transaction) : bool :=
  type_check (type r) && frequency_check (frequency r).

(** [INSERT INTO public.recurring_transactions]; [frequency_value] is an
    [INTEGER] column and [id] is the primary key. *)
Definition insert_recurring
    (tbl : list recurring_transaction) (r : recurring_transaction)
  : outcome (list recurring_transaction) :=
  if negb (dates_ok r && dates_in_range r) then Raised datetime_field_overflow
  else if negb (int4 (frequency_value r)) then Raised numeric_value_out_of_range
  else if negb (row_check r) then Raised check_violation
  else if existsb (fun r' => String.eqb (id r') (id r)) tbl then Raised unique_violation
  else Done (tbl ++ [r]).

(** The [SET] list of a client update: [None] leaves the column alone.
    [next_occurrence] is not among the columns a client update writes. *)
Record recurring_update : Type := mkupdate {
  set_name : option string;
  set_type : option string;
  set_amount : option numeric;
  set_category : option string;
  set_description : option string;
  set_frequency : option string;
  set_frequency_value : option Z;
  set_start_date : option date;
  set_end_date : option date;
  set_is_active : option bool
}.

Definition or_keep {A : Type} (new : option A) (old : A) : A :=
  match new with Some a => a | None => old end.

Definition or_keep_opt {A : Type} (new : option A) (old : option A) : option A :=
  match new with Some a => Some a | None => old end.

(** The updated row; the [BEFORE UPDATE] trigger stamps [updated_at]. *)
Definition apply_update
    (now : timestamptz) (u : recurring_update) (r : recurring_transaction)
  : recurring_transaction :=
  {| id := id r; user_id := user_id r;
     name := or_keep (set_name u) (name r);
     type := or_keep (set_type u) (type r);
     amount := or_keep (set_amount u) (amount r);
     category := or_keep (set_category u) (category r);
     description := or_keep_opt (set_description u) (description r);
     frequency := or_keep (set_frequency u) (frequency r);
     frequency_value := or_keep (set_frequency_value u) (frequency_value r);
     start_date := or_keep (set_start_date u) (start_date r);
     end_date := or_keep_opt (set_end_date u) (end_date r);
     next_occurrence := next_occurrence r;
     is_active := or_keep (set_is_active u) (is_active r);
     created_at := created_at r;
     updated_at := now |}.

Definition update_dates_ok (u : recurring_update) : bool :=
  match set_start_date u with None => true | Some d => valid_dateb d end
  && match set_end_date u with None => true | Some d => valid_dateb d end.

Definition update_dates_in_range (u : recurring_update) : bool :=
  match set_start_date u with None => true | Some d => in_date_range d end
  && match set_end_date u with None => true | Some d => in_date_range d end.

Definition update_integer_ok (u : recurring_update) : bool :=
  match set_frequency_value u with None => true | Some v => int4 v end.

(** [UPDATE public.recurring_transactions SET ... WHERE id = rid] *)
Definition update_recurring
    (now : timestamptz) (tbl : list recurring_transaction)
    (rid : uuid) (u : recurring_update)
  : outcome (list recurring_transaction) :=
  if negb (update_dates_ok u && update_dates_in_range u)
  then Raised datetime_field_overflow
  else if negb (update_integer_ok u) then Raised numeric_value_out_of_range
  else if existsb (fun r => String.eqb (id r) rid
                            && negb (row_check (apply_update now u r))) tbl
       then Raised check_violation
  else Done (map (fun r => if String.eqb (id r) rid
                           then apply_update now u r else r) tbl).

(** [DELETE FROM public.recurring_transactions WHERE id = rid] *)
Definition delete_recurring
    (tbl : list recurring_transaction) (rid : uuid)
  : list recurring_transaction :=
  filter (fun r => negb (String.eqb (id r) rid)) tbl.

End Migration.

(* ================================================================== *)
(** ** JavaScript numbers *)

Module JS.

(** A [number] is a binary64 floating-point value. *)
Definition number : Type := spec_float.

Definition NaN : number := S754_nan.
Definition zero : number := S754_zero false.

(** The integer [z] as a number, rounded to nearest when it has more
    than 53 significant bits. *)
Definition of_Z (z : Z) : number := binary_normalize 53 1024 z 0 false.

(** [x + y], [x - y] and [x / y], rounded to nearest, ties to even. *)
Definition add (x y : number) : number := SFadd 53 1024 x y.
Definition sub (x y : number) : number := SFsub 53 1024 x y.

(** [x === y] on numbers: [NaN] equals nothing, the two zeros are equal. *)
Definition strict_eq (x y : number) : bool := SFeqb x y.


(** [Math.max(x, y)]: [NaN] when either argument is, and [+0] above [-0]. *)
Definition Math_max (x y : number) : number :=
  match SFcompare x y with
  | None => NaN
  | Some Lt => y
  | Some Gt => x
  | Some Eq => match x with S754_zero true => y | _ => x end
  end.

(** What [!x] tests on a number: zero and [NaN] are falsy. *)
Definition truthy (x : number) : bool :=
  match x with
  | S754_zero _ | S754_nan => false
  | _ => true
  end.

End JS.

(* ================================================================== *)
(** ** The [useBudgetData] hook *)

Module Hook.

Record Transaction : Type := mkTransaction {
  tx_id : string;
  tx_type : string;
  tx_amount : JS.number;
  tx_category : string;
  tx_description : string;
  tx_date : string;
  tx_createdAt : string
}.

Record Budget : Type := mkBudget {
  b_id : string;
  b_category : string;
  b_limit : JS.number;
  b_spent : JS.number;
  b_period : string;
  b_createdAt : string
}.

(** [Omit<Transaction, 'id' | 'createdAt'>] *)
Record NewTransaction : Type := mkNewTransaction {
  n_type : string;
  n_amount : JS.number;
  n_category : string;
  n_description : string;
  n_date : string
}.

(** The two pieces of React state the transaction operations touch.  An
    operation reads the state it is called in. *)
Record state : Type := mkstate {
  transactions : list Transaction;
  budgets : list Budget
}.

(** What an operation does to the outside: calls on the store client and
    notifications shown to the user, in the order they happen. *)
Inductive effect : Type :=
| auth_getUser
| transactions_insert (user_id : string) (row : NewTransaction)
| transactions_delete (id : string)
| budgets_update_spent (spent : JS.number) (user_id category : string)
| toast (title description : string) (destructive : bool).

Definition with_spent (budget : Budget) (newSpent : JS.number) : Budget :=
  {| b_id := b_id budget; b_category := b_category budget;
     b_limit := b_limit budget; b_spent := newSpent;
     b_period := b_period budget; b_createdAt := b_createdAt budget |}.

(** [prev.map(budget => budget.category === c ? {...budget, spent} : budget)] *)
Definition setBudgets_spent (c : string) (newSpent : JS.number) (prev : list Budget)
  : list Budget :=
  map (fun budget =>
         if String.eqb (b_category budget) c
         then with_spent budget newSpent
         else budget)
      prev.

(** [budgets.find(b => b.category === c)] *)
Definition find_budget (c : string) (bs : list Budget) : option Budget :=
  find (fun b => String.eqb (b_category b) c) bs.

(** [transactions.find(t => t.id === id)] *)
Definition find_transaction (id : string) (ts : list Transaction)
  : option Transaction :=
  find (fun t => String.eqb (tx_id t) id) ts.

(** [addTransaction].  [user] is what [auth.getUser()] answers and
    [reply] what the insert answers: an error message or the stored row. *)
Definition addTransaction
    (user : option string) (reply : string + Transaction)
    (st : state) (transaction : NewTransaction) : state * list effect :=
  match user with
  | None =>
      (st, [auth_getUser;
            toast "Error adding transaction" "User not authenticated" true])
  | Some user_id =>
      let called := [auth_getUser; transactions_insert user_id transaction] in
      match reply with
      | inl message =>
          (st, called ++ [toast "Error adding transaction" message true])
      | inr data =>
          let newTransaction :=
            {| tx_id := tx_id data; tx_type := tx_type data;
               tx_amount := tx_amount data; tx_category := tx_category data;
               tx_description := tx_description data; tx_date := tx_date data;
               tx_createdAt := tx_createdAt data |} in
          let transactions' := newTransaction :: transactions st in
          let added :=
            toast "Transaction added" "Transaction has been added successfully." false in
          if String.eqb (n_type transaction) "expense" then
            match find_budget (n_category transaction) (budgets st) with
            | Some currentBudget =>
                let newSpent := JS.add (b_spent currentBudget) (n_amount transaction) in
                (mkstate transactions'
                   (setBudgets_spent (n_category transaction) newSpent (budgets st)),
                 called
                 ++ [budgets_update_spent newSpent user_id (n_category transaction);
                     added])
            | None => (mkstate transactions' (budgets st), called ++ [added])
            end
          else (mkstate transactions' (budgets st), called ++ [added])
      end
  end.

(** [deleteTransaction].  [delete_error] is the error of the store's
    delete, if any; [user] is what [auth.getUser()] answers. *)
Definition deleteTransaction
    (delete_error : option string) (user : option string)
    (st : state) (id : string) : state * list effect :=
  match find_transaction id (transactions st) with
  | None => (st, [])
  | Some transaction =>
      match delete_error with
      | Some message =>
          (st, [transactions_delete id;
                toast "Error deleting transaction" message true])
      | None =>
          let transactions' :=
            filter (fun t => negb (String.eqb (tx_id t) id)) (transactions st) in
          let deleted :=
            toast "Transaction deleted" "Transaction has been deleted successfully." false in
          if String.eqb (tx_type transaction) "expense" then
            match user with
            | Some user_id =>
                match find_budget (tx_category transaction) (budgets st) with
                | Some currentBudget =>
                    let newSpent :=
                      JS.Math_max JS.zero
                        (JS.sub (b_spent currentBudget) (tx_amount transaction)) in
                    (mkstate transactions'
                       (setBudgets_spent (tx_category transaction) newSpent (budgets st)),
                     [transactions_delete id; auth_getUser;
                      budgets_update_spent newSpent user_id (tx_category transaction);
                      deleted])
                | None =>
                    (mkstate transactions' (budgets st),
                     [transactions_delete id; auth_getUser; deleted])
                end
            | None =>
                (mkstate transactions' (budgets st),
                 [transactions_delete id; auth_getUser; deleted])
            end
          else (mkstate transactions' (budgets st), [transactions_delete id; deleted])
      end
  end.

(** *** Recurring templates: what the hook's operations do to the store *)

(** A number on its way to a [NUMERIC] column: the decimal its JSON text
    spells, or [None] for [null], which is what [NaN] and the infinities
    are sent as. *)
Definition json_number : Type := option Migration.numeric.

(** [Omit<RecurringTransaction, 'id' | 'createdAt' | 'nextOccurrence' | 'isActive'>];
    a date string is given by the year, month and day it spells, and
    [frequencyValue] by the integer the page's [parseInt] made it. *)
Record NewRecurringTransaction : Type := mkNewRecurring {
  r_name : string;
  r_type : string;
  r_amount : json_number;
  r_category : string;
  r_description : option string;
  r_frequency : string;
  r_frequencyValue : Z;
  r_startDate : date;
  r_endDate : option date
}.

(** [Partial<RecurringTransaction>] *)
Record RecurringUpdates : Type := mkUpdates {
  u_id : option string;
  u_name : option string;
  u_type : option string;
  u_amount : option json_number;
  u_category : option string;
  u_description : option string;
  u_frequency : option string;
  u_frequencyValue : option Z;
  u_startDate : option date;
  u_endDate : option date;
  u_nextOccurrence : option date;
  u_isActive : option bool;
  u_createdAt : option string
}.

(** The keys of the object the hook passes to
    [supabase.rpc('calculate_next_occurrence', ...)]. *)
Definition rpc_arguments : list string :=
  ["occurrence_date"; "frequency"; "frequency_value"]%string.

(** The store's API finds a function by the names of the arguments. *)
Definition same_names (sent declared : list string) : bool :=
  forallb (fun a => existsb (String.eqb a) declared) sent
  && forallb (fun p => existsb (String.eqb p) sent) declared.

(** [supabase.rpc('calculate_next_occurrence', ...)] on the day [today]:
    [data] is the function's result, or null when the call fails.
    [answers] is false when the request does not get through. *)
Definition rpc_calculate_next_occurrence
    (answers : bool) (today : date) (occurrence_date : date)
    (frequency : string) (frequency_value : Z) : option date :=
  if answers
     && same_names rpc_arguments Migration.calculate_next_occurrence_parameters
  then match Migration.calculate_next_occurrence
               today occurrence_date frequency frequency_value with
       | Migration.Done d => Some d
       | Migration.Raised _ => None
       end
  else None.

(** [addRecurringTransaction] on the day [today]: [new_id] is the id the
    store draws for the row and [now] its clock. *)
Definition addRecurringTransaction
    (user : option string) (rpc_answers : bool)
    (new_id : Migration.uuid) (now : Migration.timestamptz) (today : date)
    (recurringTransaction : NewRecurringTransaction)
    (tbl : list Migration.recurring_transaction)
  : list Migration.recurring_transaction :=
  match user with
  | None => tbl
  | Some user_id =>
      let nextOccurrence :=
        rpc_calculate_next_occurrence rpc_answers today
          (r_startDate recurringTransaction)
          (r_frequency recurringTransaction)
          (r_frequencyValue recurringTransaction) in
      match r_amount recurringTransaction with
      | None => tbl   (* [amount] is [NOT NULL]: the insert is refused *)
      | Some amount =>
          let row :=
            {| Migration.id := new_id;
               Migration.user_id := user_id;
               Migration.name := r_name recurringTransaction;
               Migration.type := r_type recurringTransaction;
               Migration.amount := amount;
               Migration.category := r_category recurringTransaction;
               Migration.description := r_description recurringTransaction;
               Migration.frequency := r_frequency recurringTransaction;
               Migration.frequency_value := r_frequencyValue recurringTransaction;
               Migration.start_date := r_startDate recurringTransaction;
               Migration.end_date := r_endDate recurringTransaction;
               Migration.next_occurrence :=
                 match nextOccurrence with
                 | Some d => d
                 | None => r_startDate recurringTransaction
                 end;
               Migration.is_active := true;
               Migration.created_at := now;
               Migration.updated_at := now |} in
          match Migration.insert_recurring tbl row with
          | Migration.Done tbl' => tbl'
          | Migration.Raised _ => tbl
          end
      end
  end.

(** The [updateData] object built from [updates], once its amount is
    known not to be null. *)
Definition updateData (updates : RecurringUpdates) : Migration.recurring_update :=
  {| Migration.set_name := u_name updates;
     Migration.set_type := u_type updates;
     Migration.set_amount :=
       match u_amount updates with Some (Some a) => Some a | _ => None end;
     Migration.set_category := u_category updates;
     Migration.set_description := u_description updates;
     Migration.set_frequency := u_frequency updates;
     Migration.set_frequency_value := u_frequencyValue updates;
     Migration.set_start_date := u_startDate updates;
     Migration.set_end_date := u_endDate updates;
     Migration.set_is_active := u_isActive updates |}.

Definition updateRecurringTransaction
    (now : Migration.timestamptz) (id : string) (updates : RecurringUpdates)
    (tbl : list Migration.recurring_transaction)
  : list Migration.recurring_transaction :=
  match u_amount updates with
  | Some None => tbl   (* [amount] is [NOT NULL]: no row is rewritten *)
  | _ =>
      match Migration.update_recurring now tbl id (updateData updates) with
      | Migration.Done tbl' => tbl'
      | Migration.Raised _ => tbl
      end
  end.

Definition deleteRecurringTransaction
    (id : string) (tbl : list Migration.recurring_transaction)
  : list Migration.recurring_transaction :=
  Migration.delete_recurring tbl id.

Definition processRecurringTransactions
    (now : Migration.timestamptz) (today : date) (db : Migration.database)
  : Migration.database :=
  fst (Migration.process_recurring_transactions now today db).

(** The operations a session can apply to the store's templates. *)
Inductive action : Type :=
| Add (user : option string) (rpc_answers : bool)
      (new_id : Migration.uuid) (now : Migration.timestamptz) (today : date)
      (recurringTransaction : NewRecurringTransaction)
| Update (now : Migration.timestamptz) (id : string) (updates : RecurringUpdates)
| Delete (id : string)
| Process (now : Migration.timestamptz) (today : date).

Definition on_templates
    (f : list Migration.recurring_transaction -> list Migration.recurring_transaction)
    (db : Migration.database) : Migration.database :=
  Migration.mkdb (Migration.transactions db) (f (Migration.recurring_transactions db)).

Definition apply_action (db : Migration.database) (a : action) : Migration.database :=
  match a with
  | Add user rpc_answers new_id now today r =>
      on_templates (addRecurringTransaction user rpc_answers new_id now today r) db
  | Update now id updates =>
      on_templates (updateRecurringTransaction now id updates) db
  | Delete id => on_templates (deleteRecurringTransaction id) db
  | Process now today => processRecurringTransactions now today db
  end.

Definition run (db : Migration.database) (actions : list action) : Migration.database :=
  fold_left apply_action actions db.

Definition empty_db : Migration.database := Migration.mkdb [] [].



End Hook.

(* ================================================================== *)
(** ** Sample rows, after the seed data *)

Module Examples.

Import Migration.

Definition seed_user : uuid := "afdc4f92-05c9-41da-8cf0-6b0adc63edae"%string.

Definition template
    (rid name type : string) (amount : numeric) (category : string)
    (description : option string) (frequency : string) (frequency_value : Z)
    (start_date : date) (end_date : option date) (next_occurrence : date)
  : recurring_transaction :=
  {| id := rid; user_id := seed_user; name := name; type := type;
     amount := amount; category := category; description := description;
     frequency := frequency; frequency_value := frequency_value;
     start_date := start_date; end_date := end_date;
     next_occurrence := next_occurrence; is_active := true;
     created_at := 0; updated_at := 0 |}.

Definition salary : recurring_transaction :=
  template "rt-salary" "Monthly Salary" "income" (Numeric.cents 500000) "Salary"
    (Some "Regular monthly salary"%string) "monthly" 1
    (mkdate 2025 1 1) None (mkdate 2025 8 1).

Definition coffee : recurring_transaction :=
  template "rt-coffee" "Coffee Subscription" "expense" (Numeric.cents 2500) "Coffee"
    None "weekly" 1 (mkdate 2025 7 1) None (mkdate 2025 7 8).

(** A daily template five days behind 2025-08-06. *)
Definition parking : recurring_transaction :=
  template "rt-parking" "Parking" "expense" (Numeric.cents 300) "Transportation"
    None "daily" 1 (mkdate 2025 7 1) None (mkdate 2025 8 1).

(** A template whose end date lies before its next occurrence. *)
Definition gym : recurring_transaction :=
  template "rt-gym" "Gym Membership" "expense" (Numeric.cents 4999) "Healthcare"
    (Some "Monthly gym membership"%string) "monthly" 1
    (mkdate 2025 1 1) (Some (mkdate 2025 7 31)) (mkdate 2025 8 1).

(** An amount of 100,000,000.00: fine for [NUMERIC], too wide for
    [DECIMAL(10,2)]. *)
Definition mortgage : recurring_transaction :=
  template "rt-mortgage" "House" "expense" (Numeric.cents 10000000000)
    "Bills & Utilities"
    None "monthly" 1 (mkdate 2025 1 1) None (mkdate 2025 8 1).

(** A template that recurs every 300000 years. *)
Definition comet : recurring_transaction :=
  template "rt-comet" "Comet" "expense" (Numeric.cents 100) "Entertainment"
    None "yearly" 300000 (mkdate 2025 1 1) None (mkdate 2025 8 1).

(** An amount of 10.005, with three decimal places. *)
Definition toll : recurring_transaction :=
  template "rt-toll" "Toll" "expense" (Numeric.mknumeric 10005 3) "Transportation"
    None "weekly" 1 (mkdate 2025 7 1) None (mkdate 2025 8 1).

Definition db_of (tbl : list recurring_transaction) : database := mkdb [] tbl.

End Examples.

(** Hook state after the mock data of the hook's tests. *)
Module HookExamples.

Import Hook.
Local Open Scope string_scope.

Definition groceries : Transaction :=
  mkTransaction "2" "expense" (JS.of_Z 500) "Food & Dining" "Groceries"
                "2024-01-16" "2024-01-16T10:00:00Z".

Definition food_budget : Budget :=
  mkBudget "1" "Food & Dining" (JS.of_Z 800) (JS.of_Z 500) "monthly"
           "2024-01-01T10:00:00Z".

Definition loaded : state := mkstate [groceries] [food_budget].

Definition lunch : NewTransaction :=
  mkNewTransaction "expense" (JS.of_Z 50) "Food & Dining" "Lunch" "2024-01-17".

Definition lunch_row : Transaction :=
  mkTransaction "3" "expense" (JS.of_Z 50) "Food & Dining" "Lunch"
                "2024-01-17" "2024-01-17T12:00:00Z".






End HookExamples.

(** Sessions on the recurring page. *)
Module SessionExamples.

Import Hook.
Local Open Scope string_scope.

Definition rent : NewRecurringTransaction :=
  mkNewRecurring "Rent Payment" "expense" (Some (Numeric.cents 120000))
                 "Bills & Utilities"
                 (Some "Monthly rent payment") "monthly" 1 (mkdate 2025 1 1) None.

(** What the edit form submits when only the start date was changed. *)
Definition start_in_june : RecurringUpdates :=
  {| u_id := None; u_name := Some "Rent Payment"; u_type := Some "expense";
     u_amount := Some (Some (Numeric.cents 120000));
     u_category := Some "Bills & Utilities";
     u_description := Some "Monthly rent payment";
     u_frequency := Some "monthly"; u_frequencyValue := Some 1;
     u_startDate := Some (mkdate 2025 6 1); u_endDate := None;
     u_nextOccurrence := None; u_isActive := None; u_createdAt := None |}.



Definition create_rent : action :=
  Add (Some Examples.seed_user) true "rt-rent" 0 (mkdate 2024 12 20) rent.

(** The template is created, then its start date is moved to June. *)
Definition edited : list action := [create_rent; Update 1 "rt-rent" start_in_june].


End SessionExamples.

(* ================================================================== *)
(** ** The hook's budget and goal operations *)

Module Ledger.

Import Hook.

(** [Partial<Budget>]: [None] is a key the object does not have. *)
Record BudgetUpdates : Type := mkBudgetUpdates {
  bu_id : option string;
  bu_category : option string;
  bu_limit : option JS.number;
  bu_spent : option JS.number;
  bu_period : option string;
  bu_createdAt : option string
}.

(** Store calls and notifications of the budget operations. *)
Inductive budget_effect : Type :=
| budgets_update (id : string) (limit_amount spent : option JS.number)
                 (period category : option string)
| budgets_delete (id : string)
| notify (title description : string) (destructive : bool).

(** [{ ...budget, ...updates }] *)
Definition merge_budget (budget : Budget) (updates : BudgetUpdates) : Budget :=
  {| b_id := match bu_id updates with Some v => v | None => b_id budget end;
     b_category :=
       match bu_category updates with Some v => v | None => b_category budget end;
     b_limit := match bu_limit updates with Some v => v | None => b_limit budget end;
     b_spent := match bu_spent updates with Some v => v | None => b_spent budget end;
     b_period := match bu_period updates with Some v => v | None => b_period budget end;
     b_createdAt :=
       match bu_createdAt updates with Some v => v | None => b_createdAt budget end |}.

Definition updateBudget
    (update_error : option string) (st : state) (id : string)
    (updates : BudgetUpdates) : state * list budget_effect :=
  let called :=
    budgets_update id (bu_limit updates) (bu_spent updates)
                   (bu_period updates) (bu_category updates) in
  match update_error with
  | Some message => (st, [called; notify "Error updating budget" message true])
  | None =>
      (mkstate (transactions st)
         (map (fun budget =>
                 if String.eqb (b_id budget) id
                 then merge_budget budget updates else budget)
              (budgets st)),
       [called; notify "Budget updated" "Budget has been updated successfully." false])
  end.

Definition deleteBudget
    (delete_error : option string) (st : state) (id : string)
  : state * list budget_effect :=
  match delete_error with
  | Some message =>
      (st, [budgets_delete id; notify "Error deleting budget" message true])
  | None =>
      (mkstate (transactions st)
         (filter (fun b => negb (String.eqb (b_id b) id)) (budgets st)),
       [budgets_delete id;
        notify "Budget deleted" "Budget has been deleted successfully." false])
  end.

End Ledger.

Module Goals.

Record Goal : Type := mkGoal {
  g_id : string;
  g_title : string;
  g_targetAmount : Z;
  g_currentAmount : Z;
  g_deadline : string;
  g_description : string;
  g_createdAt : string
}.


Inductive goal_effect : Type :=
| goals_update (id : string) (title : option string)
               (target_amount current_amount : option Z)
               (deadline description : option string)
| goals_delete (id : string)
| notify (title description : string) (destructive : bool).



Definition deleteGoal
    (delete_error : option string) (goals : list Goal) (id : string)
  : list Goal * list goal_effect :=
  match delete_error with
  | Some message => (goals, [goals_delete id; notify "Error deleting goal" message true])
  | None =>
      (filter (fun g => negb (String.eqb (g_id g) id)) goals,
       [goals_delete id; notify "Goal deleted" "Goal has been deleted successfully." false])
  end.



End Goals.

(* ================================================================== *)
(** ** The recurring page's toggle, and what the store guarantees *)

Module RecurringPage.

Import Migration.

(** The object [{ isActive }]. *)
Definition only_isActive (isActive : bool) : Hook.RecurringUpdates :=
  {| Hook.u_id := None; Hook.u_name := None; Hook.u_type := None;
     Hook.u_amount := None; Hook.u_category := None; Hook.u_description := None;
     Hook.u_frequency := None; Hook.u_frequencyValue := None;
     Hook.u_startDate := None; Hook.u_endDate := None;
     Hook.u_nextOccurrence := None; Hook.u_isActive := Some isActive;
     Hook.u_createdAt := None |}.

(** [handleToggleActive], as far as the store is concerned. *)
Definition handleToggleActive
    (now : timestamptz) (id : string) (isActive : bool)
    (tbl : list recurring_transaction) : list recurring_transaction :=
  Hook.updateRecurringTransaction now id (only_isActive isActive) tbl.

(** What the table definition promises of every stored template table:
    the primary key, the [DATE] columns and the two [CHECK]s. *)
Definition store_consistent (tbl : list recurring_transaction) : Prop :=
  NoDup (map id tbl)
  /\ Forall (fun r => dates_ok r = true /\ row_check r = true) tbl.

End RecurringPage.

(* ================================================================== *)
(** ** Importing transactions *)

Module Importing.

Import Hook.

(** The values a field of an imported record can hold; [js_object]
    stands for a plain object. *)
Inductive js_value : Type :=
| js_undefined
| js_null
| js_boolean (b : bool)
| js_number (x : JS.number)
| js_string (s : string)
| js_object.

(** What [!v] tests. *)
Definition truthy (v : js_value) : bool :=
  match v with
  | js_undefined | js_null => false
  | js_boolean b => b
  | js_number x => JS.truthy x
  | js_string s => negb (String.eqb s "")
  | js_object => true
  end.

(** [s === v] for a string [s]. *)
Definition strict_eq_string (s : string) (v : js_value) : bool :=
  match v with
  | js_string s' => String.eqb s s'
  | _ => false
  end.

(** [v || ''] *)
Definition or_empty (v : js_value) : js_value :=
  if truthy v then v else js_string "".

(** The fields the import reads of one record of the file. *)
Record ImportedTransaction : Type := mkImported {
  i_type : js_value;
  i_amount : js_value;
  i_category : js_value;
  i_date : js_value;
  i_description : js_value
}.

(** The row handed to the store's insert. *)
Record InsertedRow : Type := mkInserted {
  p_user_id : string;
  p_type : js_value;
  p_amount : JS.number;
  p_category : js_value;
  p_description : js_value;
  p_date : js_value
}.

(** [{ imported, skipped, errors }] *)
Record ImportResult : Type := mkResult {
  imported : nat;
  skipped : nat;
  errors : list string
}.

Section WithBuiltins.

(** [Number(s)] on strings; [JSON.stringify] on a record; and the message
    of the [TypeError] raised by reading a field of [null] or
    [undefined]. *)
Variable Number_of_string : string -> JS.number.
Variable stringify : ImportedTransaction -> string.
Variable type_error_message : string.

(** [Number(v)] *)
Definition Number (v : js_value) : JS.number :=
  match v with
  | js_undefined | js_object => JS.NaN
  | js_null => JS.zero
  | js_boolean b => if b then JS.of_Z 1 else JS.zero
  | js_number x => x
  | js_string s => Number_of_string s
  end.

(** The validation at the head of the loop body. *)
Definition has_required_fields (r : ImportedTransaction) : bool :=
  truthy (i_type r) && truthy (i_amount r)
  && truthy (i_category r) && truthy (i_date r).

(** The duplicate test against the transactions the hook has loaded. *)
Definition is_duplicate (loaded : list Transaction) (r : ImportedTransaction) : bool :=
  match find (fun t =>
                JS.strict_eq (tx_amount t) (Number (i_amount r))
                && strict_eq_string (tx_date t) (i_date r)
                && strict_eq_string (tx_description t) (i_description r)
                && strict_eq_string (tx_category t) (i_category r))
             loaded
  with
  | Some _ => true
  | None => false
  end.

Definition row_of (user_id : string) (r : ImportedTransaction) : InsertedRow :=
  {| p_user_id := user_id;
     p_type := i_type r;
     p_amount := Number (i_amount r);
     p_category := i_category r;
     p_description := or_empty (i_description r);
     p_date := i_date r |}.

(** Counters, messages and the inserts issued so far. *)
Record progress : Type := mkprogress {
  result : ImportResult;
  calls : list InsertedRow
}.

(** One turn of the [for ... of] loop; [None] is an entry of the file
    that is [null] or [undefined].  [reply k] is the error, if any, of the
    [k]-th insert of this import. *)
Definition import_one
    (user_id : string) (loaded : list Transaction) (reply : nat -> option string)
    (p : progress) (entry : option ImportedTransaction) : progress :=
  let res := result p in
  match entry with
  | None =>
      mkprogress
        (mkResult (imported res) (S (skipped res))
           (errors res ++ [("Error processing transaction: " ++ type_error_message)%string]))
        (calls p)
  | Some transaction =>
      if negb (has_required_fields transaction) then
        mkprogress
          (mkResult (imported res) (S (skipped res))
             (errors res
              ++ [("Transaction missing required fields: " ++ stringify transaction)%string]))
          (calls p)
      else if is_duplicate loaded transaction then
        mkprogress (mkResult (imported res) (S (skipped res)) (errors res)) (calls p)
      else
        let calls' := calls p ++ [row_of user_id transaction] in
        match reply (List.length (calls p)) with
        | Some message =>
            mkprogress
              (mkResult (imported res) (S (skipped res))
                 (errors res ++ [("Failed to import transaction: " ++ message)%string]))
              calls'
        | None =>
            mkprogress (mkResult (S (imported res)) (skipped res) (errors res)) calls'
        end
  end.

Definition start : progress := mkprogress (mkResult 0 0 []) [].

(** [importTransactions].  Without a session the call fails with a
    message; otherwise it returns the new state, the counts and the
    inserts it issued.  [reload] is what the store answers when the
    transactions are fetched again after the loop. *)
Definition importTransactions
    (user : option string) (reply : nat -> option string)
    (reload : option (list Transaction))
    (st : state) (importedTransactions : list (option ImportedTransaction))
  : string + (state * ImportResult * list InsertedRow) :=
  match user with
  | None => inl "Import failed: User not authenticated"%string
  | Some user_id =>
      let p := fold_left (import_one user_id (transactions st) reply)
                         importedTransactions start in
      let st' :=
        if (0 <? imported (result p))%nat
        then match reload with
             | Some transactionsData => mkstate transactionsData (budgets st)
             | None => st
             end
        else st in
      inr (st', result p, calls p)
  end.

(** The records of a file the import tries to insert: those with all
    required fields that match no loaded transaction. *)
Definition eligible (loaded : list Transaction) (entry : option ImportedTransaction)
  : option ImportedTransaction :=
  match entry with
  | Some r => if has_required_fields r && negb (is_duplicate loaded r)
              then Some r else None
  | None => None
  end.

Fixpoint eligible_records
    (loaded : list Transaction) (entries : list (option ImportedTransaction))
  : list ImportedTransaction :=
  match entries with
  | [] => []
  | entry :: rest =>
      match eligible loaded entry with
      | Some r => r :: eligible_records loaded rest
      | None => eligible_records loaded rest
      end
  end.

End WithBuiltins.

(** How many of the inserts numbered [from], ..., [from + n - 1] the
    store accepted. *)
Definition accepted (reply : nat -> option string) (from n : nat) : nat :=
  List.length (filter (fun k => match reply k with None => true | Some _ => false end)
                      (seq from n)).

End Importing.

(* ================================================================== *)
(** ** Facts about the calendar *)

Section CalendarFacts.

Lemma date_lt_iff (a b : date) :
  date_lt a b <->
  year a < year b \/
  (year a = year b /\
   (month a < month b \/ (month a = month b /\ day a < day b))).
Proof.
  unfold date_lt, date_ltb, date_compare.
  destruct (Z.compare_spec (year a) (year b));
    destruct (Z.compare_spec (month a) (month b));
    destruct (Z.compare_spec (day a) (day b));
    split; intros; try discriminate; try reflexivity; lia.
Qed.

Lemma date_le_iff (a b : date) :
  date_le a b <->
  year a < year b \/
  (year a = year b /\
   (month a < month b \/ (month a = month b /\ day a <= day b))).
Proof.
  unfold date_le, date_leb, date_compare.
  destruct (Z.compare_spec (year a) (year b));
    destruct (Z.compare_spec (month a) (month b));
    destruct (Z.compare_spec (day a) (day b));
    split; intros; try discriminate; try reflexivity; lia.
Qed.

Lemma valid_dateb_iff (d : date) : valid_dateb d = true <-> valid_date d.
Proof.
  unfold valid_dateb, valid_date.
  rewrite !andb_true_iff, !Z.leb_le. tauto.
Qed.

Lemma date_lt_irrefl (a : date) : ~ date_lt a a.
Proof. rewrite date_lt_iff. lia. Qed.

Lemma date_le_refl (a : date) : date_le a a.
Proof. rewrite date_le_iff. lia. Qed.

Lemma date_lt_le (a b : date) : date_lt a b -> date_le a b.
Proof. rewrite date_lt_iff, date_le_iff. lia. Qed.

Lemma date_lt_trans (a b c : date) : date_lt a b -> date_lt b c -> date_lt a c.
Proof. rewrite !date_lt_iff. lia. Qed.

Lemma date_le_trans (a b c : date) : date_le a b -> date_le b c -> date_le a c.
Proof. rewrite !date_le_iff. lia. Qed.


Lemma date_lt_not_le (a b : date) : date_lt a b -> ~ date_le b a.
Proof. rewrite date_lt_iff, date_le_iff. lia. Qed.

Lemma date_lt_neq (a b : date) : date_lt a b -> a <> b.
Proof. intros H E. subst. exact (date_lt_irrefl _ H). Qed.

Lemma date_leb_false_lt (a b : date) : date_leb a b = false -> date_lt b a.
Proof.
  intro H. apply date_lt_iff.
  assert (N : ~ date_le a b) by (unfold date_le; congruence).
  rewrite date_le_iff in N. lia.
Qed.

Lemma days_in_month_bounds (y m : Z) : 28 <= days_in_month y m <= 31.
Proof.
  unfold days_in_month.
  destruct (m =? 2); [destruct (isleap y); lia|].
  destruct ((m =? 4) || (m =? 6) || (m =? 9) || (m =? 11)); lia.
Qed.


Lemma prev_day_lt (d : date) : date_lt (prev_day d) d.
Proof.
  apply date_lt_iff. unfold prev_day.
  destruct (Z.ltb_spec 1 (day d)); cbn [year month day]; [lia|].
  destruct (Z.ltb_spec 1 (month d)); cbn [year month day]; lia.
Qed.

Lemma next_day_valid (d : date) : valid_date d -> valid_date (next_day d).
Proof.
  unfold valid_date, next_day. intros [Hm Hd].
  destruct (Z.ltb_spec (day d) (days_in_month (year d) (month d))); cbn [year month day]; [lia|].
  destruct (Z.ltb_spec (month d) 12); cbn [year month day].
  - pose proof (days_in_month_bounds (year d) (month d + 1)). lia.
  - pose proof (days_in_month_bounds (year d + 1) 1). lia.
Qed.

Lemma prev_day_valid (d : date) : valid_date d -> valid_date (prev_day d).
Proof.
  unfold valid_date, prev_day. intros [Hm Hd].
  destruct (Z.ltb_spec 1 (day d)); cbn [year month day]; [lia|].
  destruct (Z.ltb_spec 1 (month d)); cbn [year month day].
  - pose proof (days_in_month_bounds (year d) (month d - 1)). lia.
  - change (days_in_month (year d - 1) 12) with 31. lia.
Qed.


Lemma iter_prev_day_lt (k : nat) (d : date) :
  date_lt (Nat.iter (S k) prev_day d) d.
Proof.
  induction k as [|k IH].
  - apply prev_day_lt.
  - eapply date_lt_trans; [|exact IH]. apply prev_day_lt.
Qed.

Lemma iter_valid (f : date -> date) (k : nat) (d : date) :
  (forall x, valid_date x -> valid_date (f x)) ->
  valid_date d -> valid_date (Nat.iter k f d).
Proof. intros Hf Hd. induction k; simpl; auto. Qed.


Lemma add_days_lt (d : date) (n : Z) : n < 0 -> date_lt (add_days d n) d.
Proof.
  intro Hn. unfold add_days.
  destruct (Z.leb_spec 0 n); [lia|].
  destruct (Z.to_nat (- n)) as [|k] eqn:E; [lia|].
  apply iter_prev_day_lt.
Qed.

Lemma add_days_valid (d : date) (n : Z) : valid_date d -> valid_date (add_days d n).
Proof.
  intro Hd. unfold add_days.
  destruct (0 <=? n); apply iter_valid; auto using next_day_valid, prev_day_valid.
Qed.

(** The target month of [add_months], characterised by its month count. *)
Lemma add_months_target (d : date) (n : Z) :
  12 * year (add_months d n) + month (add_months d n)
  = 12 * year d + month d + n
  /\ 1 <= month (add_months d n) <= 12.
Proof.
  unfold add_months; cbn [year month].
  remember (12 * year d + (month d - 1) + n) as t eqn:Et.
  pose proof (Z.div_mod t 12 ltac:(lia)).
  pose proof (Z.mod_pos_bound t 12 ltac:(lia)).
  lia.
Qed.

Lemma add_months_day (d : date) (n : Z) :
  day (add_months d n)
  = Z.min (day d)
      (days_in_month (year (add_months d n)) (month (add_months d n))).
Proof. reflexivity. Qed.

Lemma add_months_valid (d : date) (n : Z) :
  valid_date d -> valid_date (add_months d n).
Proof.
  intros [Hm Hd]. split; [apply add_months_target|].
  rewrite add_months_day.
  pose proof (days_in_month_bounds
                (year (add_months d n)) (month (add_months d n))).
  lia.
Qed.


Lemma add_months_lt (d : date) (n : Z) :
  valid_date d -> n < 0 -> date_lt (add_months d n) d.
Proof.
  intros [Hm Hd] Hn. apply date_lt_iff.
  destruct (add_months_target d n) as [E B]. lia.
Qed.

(** A day moves the year by at most one. *)
Lemma next_day_year (d : date) : year d <= year (next_day d) <= year d + 1.
Proof.
  unfold next_day.
  destruct (day d <? days_in_month (year d) (month d)); cbn [year]; [lia|].
  destruct (month d <? 12); cbn [year]; lia.
Qed.

Lemma prev_day_year (d : date) : year d - 1 <= year (prev_day d) <= year d.
Proof.
  unfold prev_day.
  destruct (1 <? day d); cbn [year]; [lia|].
  destruct (1 <? month d); cbn [year]; lia.
Qed.

Lemma add_days_year (d : date) (n : Z) :
  year d - Z.abs n <= year (add_days d n) <= year d + Z.abs n
  /\ (0 <= n -> year d <= year (add_days d n))
  /\ (n <= 0 -> year (add_days d n) <= year d).
Proof.
  unfold add_days. destruct (Z.leb_spec 0 n) as [Hn|Hn].
  - assert (G : forall k, year d <= year (Nat.iter k next_day d)
                          <= year d + Z.of_nat k).
    { induction k as [|k IH]; [cbn; lia|].
      cbn [Nat.iter nat_rect]. change (nat_rect _ d (fun _ => next_day) k)
        with (Nat.iter k next_day d).
      pose proof (next_day_year (Nat.iter k next_day d)). lia. }
    specialize (G (Z.to_nat n)). lia.
  - assert (G : forall k, year d - Z.of_nat k <= year (Nat.iter k prev_day d)
                          <= year d).
    { induction k as [|k IH]; [cbn; lia|].
      cbn [Nat.iter nat_rect]. change (nat_rect _ d (fun _ => prev_day) k)
        with (Nat.iter k prev_day d).
      pose proof (prev_day_year (Nat.iter k prev_day d)). lia. }
    specialize (G (Z.to_nat (- n))). lia.
Qed.

Lemma add_months_year (d : date) (n : Z) :
  1 <= month d <= 12 ->
  12 * year d + n - 11 <= 12 * year (add_months d n) <= 12 * year d + n + 11.
Proof.
  intro Hm. destruct (add_months_target d n) as [E B]. lia.
Qed.

Lemma year_in_timestamp_range (d : date) :
  -4712 <= year d <= 294275 -> in_timestamp_range d = true.
Proof.
  intro H. unfold in_timestamp_range. apply andb_true_iff.
  split; apply date_le_iff; cbn [year month day]; lia.
Qed.

Lemma timestamp_range_is_date_range (d : date) :
  in_timestamp_range d = true -> in_date_range d = true.
Proof.
  unfold in_timestamp_range, in_date_range. rewrite !andb_true_iff.
  intros [Hlo Hhi]. split; [exact Hlo|].
  apply (date_le_trans d (mkdate 294276 12 31)); [exact Hhi|reflexivity].
Qed.

End CalendarFacts.

(* ================================================================== *)
(** ** The occurrence calculator *)

Section Calculator.

Import Migration.

Lemma timestamp_of_done (d r : date) :
  timestamp_of d = Done r ->
  r = d /\ valid_date d /\ in_timestamp_range d = true.
Proof.
  unfold timestamp_of.
  destruct (valid_dateb d) eqn:V; [|discriminate].
  destruct (in_timestamp_range d) eqn:R; [|discriminate].
  cbn [andb]. intro H. inversion H; subst.
  split; [reflexivity|]. split; [apply valid_dateb_iff; exact V|reflexivity].
Qed.

Lemma timestamp_of_returns (d : date) :
  valid_date d -> -4712 <= year d <= 294275 -> timestamp_of d = Done d.
Proof.
  intros V Y. unfold timestamp_of.
  rewrite (proj2 (valid_dateb_iff d) V), (year_in_timestamp_range d Y).
  reflexivity.
Qed.

Lemma shift_valid (d : date) (i : interval) :
  valid_date d -> valid_date (shift d i).
Proof.
  intro Hd. unfold shift.
  assert (H1 : valid_date (if months i =? 0 then d else add_months d (months i)))
    by (destruct (months i =? 0); auto using add_months_valid).
  destruct (days i =? 0); auto using add_days_valid.
Qed.


Lemma shift_le (d : date) (i : interval) :
  valid_date d -> months i <= 0 -> days i <= 0 ->
  date_le (shift d i) d
  /\ (months i + days i < 0 -> date_lt (shift d i) d).
Proof.
  intros Hd Hm Hn. unfold shift.
  destruct (Z.eqb_spec (months i) 0) as [Em|Em];
    destruct (Z.eqb_spec (days i) 0) as [En|En].
  - split; [apply date_le_refl|intros; lia].
  - assert (L : date_lt (add_days d (days i)) d) by (apply add_days_lt; lia).
    split; [apply date_lt_le|]; auto.
  - assert (L : date_lt (add_months d (months i)) d)
      by (apply add_months_lt; [assumption|lia]).
    split; [apply date_lt_le|]; auto.
  - assert (L : date_lt (add_days (add_months d (months i)) (days i)) d).
    { apply date_lt_trans with (add_months d (months i)).
      - apply add_days_lt. lia.
      - apply add_months_lt; [assumption|lia]. }
    split; [apply date_lt_le|]; auto.
Qed.

(** When [date + interval] returns, it returns the shifted day, which is
    a calendar day within the range of timestamps. *)
Lemma date_pl_interval_done (d : date) (i : interval) (r : date) :
  date_pl_interval d i = Done r ->
  r = shift d i /\ valid_date d /\ valid_date r /\ in_timestamp_range r = true.
Proof.
  unfold date_pl_interval, shift.
  destruct (timestamp_of d) as [d0|e] eqn:T; cbn [and_then]; [|discriminate].
  apply timestamp_of_done in T as (-> & Vd & Rd).
  destruct (months i =? 0); cbn [and_then].
  - destruct (days i =? 0).
    + intro H. inversion H; subst. auto.
    + intro H. apply timestamp_of_done in H as (-> & V & R). auto.
  - destruct (timestamp_of (add_months d (months i))) as [d1|e] eqn:T1;
      cbn [and_then]; [|discriminate].
    apply timestamp_of_done in T1 as (-> & V1 & R1).
    destruct (days i =? 0).
    + intro H. inversion H; subst. auto.
    + intro H. apply timestamp_of_done in H as (-> & V & R). auto.
Qed.

(** [date + interval] returns when the day is a calendar day of the years
    1 to 9999 and the interval is either up to 480000 months (7200 back)
    or up to 280000 days (4200 back). *)
Lemma date_pl_interval_returns (d : date) (i : interval) :
  valid_date d -> 1 <= year d <= 9999 ->
  (days i = 0 /\ -7200 <= months i <= 480000)
  \/ (months i = 0 /\ -4200 <= days i <= 280000) ->
  date_pl_interval d i = Done (shift d i).
Proof.
  intros V Y B. unfold date_pl_interval, shift.
  rewrite (timestamp_of_returns d V) by lia. cbn [and_then].
  destruct B as [[Ed Bm]|[Em Bd]].
  - rewrite Ed. cbn [Z.eqb]. destruct (months i =? 0); cbn [and_then]; [reflexivity|].
    rewrite timestamp_of_returns; [reflexivity|apply add_months_valid; exact V|].
    pose proof (add_months_year d (months i) (proj1 V)). lia.
  - rewrite Em. cbn [Z.eqb and_then]. destruct (days i =? 0); [reflexivity|].
    rewrite timestamp_of_returns; [reflexivity|apply add_days_valid; exact V|].
    pose proof (add_days_year d (days i)). lia.
Qed.

Lemma frequency_check_cases (f : string) :
  frequency_check f = true ->
  f = "daily"%string \/ f = "weekly"%string
  \/ f = "monthly"%string \/ f = "yearly"%string.
Proof.
  unfold frequency_check. rewrite !orb_true_iff, !String.eqb_eq. tauto.
Qed.

Lemma interval_field_done (v : Z) (mk : Z -> interval) (i : interval) :
  interval_field v mk = Done i -> i = mk v /\ int4 v = true.
Proof.
  unfold interval_field. destruct (int4 v); [|discriminate].
  intro H. inversion H. auto.
Qed.

Lemma int4_iff (z : Z) : int4 z = true <-> -2147483648 <= z <= 2147483647.
Proof. unfold int4. rewrite andb_true_iff, !Z.leb_le. tauto. Qed.

(** The ways the calculator returns: through [date + interval] for one of
    the four frequencies, or through its [ELSE] branch. *)
Lemma calculate_next_occurrence_done
    (CURRENT_DATE d : date) (f : string) (n : Z) (r : date) :
  calculate_next_occurrence CURRENT_DATE d f n = Done r ->
  (frequency_check f = true
   /\ exists i, date_pl_interval CURRENT_DATE i = Done r
                /\ ((months i = 0 /\ (days i = n \/ days i = 7 * n))
                    \/ (days i = 0 /\ (months i = n \/ months i = 12 * n))))
  \/ (frequency_check f = false /\ r = CURRENT_DATE).
Proof.
  unfold calculate_next_occurrence, frequency_check.
  destruct (valid_dateb d && in_date_range d); cbn [negb]; [|discriminate].
  destruct (int4 n); cbn [negb]; [|discriminate].
  destruct (String.eqb f "daily");
    [|destruct (String.eqb f "weekly");
      [|destruct (String.eqb f "monthly");
        [|destruct (String.eqb f "yearly")]]];
    cbn [orb];
    try (match goal with
         | |- and_then ?x _ = _ -> _ => destruct x as [i|e] eqn:I
         end;
         cbn [and_then]; [|discriminate];
         apply interval_field_done in I as [-> _];
         intro H; left; split; [reflexivity|];
         eexists; split; [exact H|]; cbn [months days]; auto).
  intro H. inversion H. right. auto.
Qed.


Lemma calculate_next_occurrence_valid
    (CURRENT_DATE d : date) (f : string) (n : Z) (r : date) :
  calculate_next_occurrence CURRENT_DATE d f n = Done r ->
  frequency_check f = true ->
  valid_date r /\ in_timestamp_range r = true.
Proof.
  intros H Hf.
  destruct (calculate_next_occurrence_done _ _ _ _ _ H)
    as [[_ (i & Hi & Hs)]|[Hf' _]]; [|congruence].
  apply date_pl_interval_done in Hi as (_ & _ & V & R). auto.
Qed.

(** The calculator returns for every frequency text, on any day of the
    years 1 to 9999, for an interval from -600 to 40000. *)
Lemma calculate_next_occurrence_returns
    (CURRENT_DATE d : date) (f : string) (n : Z) :
  valid_date CURRENT_DATE -> 1 <= year CURRENT_DATE <= 9999 ->
  valid_date d -> in_date_range d = true ->
  -600 <= n <= 40000 ->
  exists r, calculate_next_occurrence CURRENT_DATE d f n = Done r.
Proof.
  intros V Y Vd Rd B. unfold calculate_next_occurrence.
  rewrite (proj2 (valid_dateb_iff d) Vd), Rd. cbn [andb negb].
  rewrite (proj2 (int4_iff n)) by lia. cbn [negb].
  unfold interval_days, interval_weeks, interval_months, interval_years,
    interval_field.
  rewrite (proj2 (int4_iff n)) by lia.
  rewrite (proj2 (int4_iff (7 * n))) by lia.
  rewrite (proj2 (int4_iff (12 * n))) by lia.
  cbn [and_then].
  destruct (String.eqb f "daily");
    [|destruct (String.eqb f "weekly");
      [|destruct (String.eqb f "monthly");
        [|destruct (String.eqb f "yearly")]]];
    try (eexists; apply date_pl_interval_returns;
         [exact V|exact Y|cbn [months days]; lia]).
  eexists. reflexivity.
Qed.




End Calculator.

Section CalculatorEdgeCases.

Import Migration.

(** C3, as stated, fails: for the frequency text "fortnightly" the
    calculator raises nothing; it returns a date, and when the reference
    date is the day of the call that date is the reference date,
    unchanged. *)
Lemma unknown_frequency_returns_a_date :
  calculate_next_occurrence (mkdate 2025 7 1) (mkdate 2025 7 1) "fortnightly" 1
  = Done (mkdate 2025 7 1).
Proof. reflexivity. Qed.

(** C3, amended.  For every reference date and every interval, a
    frequency text other than daily, weekly, monthly and yearly makes the
    calculator return, without an error, the date it computes from,
    not advanced: the [ELSE] branch of its [CASE]. *)
Theorem unknown_frequency_is_identity
    (CURRENT_DATE d : date) (f : string) (n : Z) :
  valid_dateb d && in_date_range d = true -> int4 n = true ->
  frequency_check f = false ->
  calculate_next_occurrence CURRENT_DATE d f n = Done CURRENT_DATE.
Proof.
  unfold frequency_check, calculate_next_occurrence.
  intros -> ->. cbn [negb].
  rewrite !orb_false_iff. intros [[[H1 H2] H3] H4].
  rewrite H1, H2, H3, H4. reflexivity.
Qed.

Lemma unknown_frequency_is_identity_witness :
  calculate_next_occurrence (mkdate 2024 2 29) (mkdate 2024 2 29) "fortnightly" 3
  = Done (mkdate 2024 2 29).
Proof.
  apply (unknown_frequency_is_identity
           (mkdate 2024 2 29) (mkdate 2024 2 29) "fortnightly" 3);
    reflexivity.
Defined.

(** C6: the code departs from the claim.  Called on 2025-08-06 with the
    reference date 2024-01-31, the calculator does not return the last
    day of February 2024: it returns 2025-09-06, one month after the day
    of the call.  The clamping itself is in place: called on 2024-01-31
    it returns 2024-02-29, whatever the reference date. *)
Theorem month_step_ignores_the_reference_date :
  calculate_next_occurrence (mkdate 2025 8 6) (mkdate 2024 1 31) "monthly" 1
  = Done (mkdate 2025 9 6)
  /\ calculate_next_occurrence (mkdate 2024 1 31) (mkdate 2024 1 31) "monthly" 1
     = Done (mkdate 2024 2 29)
  /\ calculate_next_occurrence (mkdate 2024 1 31) (mkdate 2023 5 17) "monthly" 1
     = Done (mkdate 2024 2 29)
  /\ days_in_month 2024 2 = 29.
Proof. repeat split; reflexivity. Qed.

(** C9, as stated, fails: with interval 0 or -1 the calculator raises
    nothing and returns a date. *)
Lemma nonpositive_interval_returns_date :
  calculate_next_occurrence (mkdate 2025 7 1) (mkdate 2025 7 1) "daily" 0
  = Done (mkdate 2025 7 1)
  /\ calculate_next_occurrence (mkdate 2025 7 1) (mkdate 2025 7 1) "weekly" (-1)
     = Done (mkdate 2025 6 24)
  /\ calculate_next_occurrence (mkdate 2025 3 31) (mkdate 2025 3 31) "monthly" (-1)
     = Done (mkdate 2025 2 28).
Proof. repeat split; reflexivity. Qed.

(** C9, amended.  With an interval [n <= 0] the calculator knows no
    error of its own.  On every day of the years 1 to 9999 and for every
    interval from -600 to 0 it returns a date; whenever it returns, the
    date is not after the date it computes from: that date itself when
    [n = 0] and, for the four frequencies, a date strictly before it when
    [n < 0].  The only errors it raises are those of values out of the
    range of their types. *)
Theorem nonpositive_interval_goes_back
    (CURRENT_DATE d : date) (f : string) (n : Z) :
  n <= 0 ->
  (forall r, calculate_next_occurrence CURRENT_DATE d f n = Done r ->
             date_le r CURRENT_DATE
             /\ (n = 0 -> r = CURRENT_DATE)
             /\ (n < 0 -> frequency_check f = true -> date_lt r CURRENT_DATE))
  /\ (valid_date CURRENT_DATE -> 1 <= year CURRENT_DATE <= 9999 ->
      valid_date d -> in_date_range d = true -> -600 <= n ->
      exists r, calculate_next_occurrence CURRENT_DATE d f n = Done r)
  /\ (forall e, calculate_next_occurrence CURRENT_DATE d f n = Raised e ->
                e = datetime_field_overflow \/ e = numeric_value_out_of_range
                \/ e = interval_field_overflow).
Proof.
  intro Hn. split; [|split].
  - intros r H.
    destruct (calculate_next_occurrence_done _ _ _ _ _ H)
      as [[Hf (i & Hi & Hs)]|[Hf ->]].
    + apply date_pl_interval_done in Hi as (-> & V & _ & _).
      destruct (shift_le CURRENT_DATE i V) as [Hle Hlt]; [lia|lia|].
      split; [exact Hle|]. split.
      * intros ->. unfold shift.
        replace (months i) with 0 by lia. replace (days i) with 0 by lia.
        reflexivity.
      * intros Hneg _. apply Hlt. lia.
    + split; [apply date_le_refl|]. split; [reflexivity|]. congruence.
  - intros V Y Vd Rd B.
    apply calculate_next_occurrence_returns; auto. lia.
  - intro e. unfold calculate_next_occurrence.
    destruct (valid_dateb d && in_date_range d); cbn [negb];
      [|intro H; inversion H; auto].
    destruct (int4 n); cbn [negb]; [|intro H; inversion H; auto].
    unfold interval_days, interval_weeks, interval_months, interval_years,
      interval_field, date_pl_interval, timestamp_of.
    repeat match goal with
           | |- context [if ?b then _ else _] => destruct b; cbn [and_then]
           end;
      intro H; inversion H; auto.
Qed.

Lemma nonpositive_interval_goes_back_witness :
  exists r,
    calculate_next_occurrence (mkdate 2025 1 1) (mkdate 2025 1 1) "daily" (-1) = Done r.
Proof.
  apply (proj1 (proj2 (nonpositive_interval_goes_back
                         (mkdate 2025 1 1) (mkdate 2025 1 1) "daily" (-1)
                         ltac:(lia)))).
  - apply valid_dateb_iff; reflexivity.
  - cbn; lia.
  - apply valid_dateb_iff; reflexivity.
  - reflexivity.
  - lia.
Defined.

End CalculatorEdgeCases.

(* ================================================================== *)
(** ** The due-template scan *)

Section Scan.

Import Migration.

Lemma same_id_same_row (tbl : list recurring_transaction) (a b : recurring_transaction) :
  NoDup (map id tbl) -> In a tbl -> In b tbl -> id a = id b -> a = b.
Proof.
  induction tbl as [|x tbl IH]; simpl; [tauto|].
  intros ND Ha Hb E. inversion ND as [|? ? Hx ND']; subst.
  destruct Ha as [->|Ha], Hb as [->|Hb]; auto.
  - exfalso. apply Hx. rewrite E. apply in_map. exact Hb.
  - exfalso. apply Hx. rewrite <- E. apply in_map. exact Ha.
Qed.

Lemma insert_transaction_spec (tbl : list transaction) (v : transaction) :
  (insertable v = true /\ insert_transaction tbl v = Done (tbl ++ [v]))
  \/ (insertable v = false /\ exists e, insert_transaction tbl v = Raised e).
Proof.
  unfold insertable, insert_transaction.
  destruct (fits_decimal_10_2 (t_amount v)); simpl.
  - destruct (type_check (t_type v)); simpl; eauto.
  - right. eauto.
Qed.

Lemma reschedule_id (now : timestamptz) (today : date) (rec r : recurring_transaction) :
  id (reschedule now today rec r) = id r.
Proof.
  unfold reschedule.
  destruct (calculate_next_occurrence _ _ _ _); [|reflexivity].
  destruct (String.eqb (id r) (id rec)); reflexivity.
Qed.

(** The loop body's [UPDATE], when the calculator returns. *)
Lemma update_next_occurrence_done
    (now : timestamptz) (today : date) (rec : recurring_transaction)
    (tbl : list recurring_transaction) :
  reschedulable today rec = true ->
  update_next_occurrence now today rec tbl
  = Done (map (reschedule now today rec) tbl).
Proof.
  unfold reschedulable, update_next_occurrence, reschedule.
  destruct (calculate_next_occurrence today (next_occurrence rec)
              (frequency rec) (frequency_value rec)) as [d|e]; [|discriminate].
  intros _. cbn [and_then].
  destruct (existsb (fun r => String.eqb (id r) (id rec)) tbl) eqn:E; [reflexivity|].
  f_equal. symmetry. erewrite map_ext_in; [apply map_id|].
  intros r Hr. cbn beta.
  destruct (String.eqb (id r) (id rec)) eqn:Hid; [|reflexivity].
  assert (X : existsb (fun r => String.eqb (id r) (id rec)) tbl = true)
    by (apply existsb_exists; eauto).
  congruence.
Qed.

(** The loop body's [UPDATE], when the calculator raises for a row of the
    table. *)
Lemma update_next_occurrence_raised
    (now : timestamptz) (today : date) (rec : recurring_transaction)
    (tbl : list recurring_transaction) :
  reschedulable today rec = false ->
  In (id rec) (map id tbl) ->
  exists e, update_next_occurrence now today rec tbl = Raised e.
Proof.
  unfold reschedulable, update_next_occurrence.
  intros H Hin.
  assert (X : existsb (fun r => String.eqb (id r) (id rec)) tbl = true).
  { apply in_map_iff in Hin as [x [Hid Hx]].
    apply existsb_exists. exists x. split; [exact Hx|].
    apply String.eqb_eq. exact Hid. }
  rewrite X.
  destruct (calculate_next_occurrence today (next_occurrence rec)
              (frequency rec) (frequency_value rec)) as [d|e]; [discriminate|].
  exists e. reflexivity.
Qed.

(** The loop on rows for which both statements of the body go through. *)
Lemma for_loop_done
    (now : timestamptz) (today : date) (rows : list recurring_transaction) :
  forall (db : database) (c : Z),
    forallb (processable today) rows = true ->
    for_loop now today rows (db, c)
    = Done (mkdb (transactions db ++ map materialize rows)
                 (fold_left (fun t rec => map (reschedule now today rec) t)
                            rows (recurring_transactions db)),
            c + Z.of_nat (List.length rows)).
Proof.
  induction rows as [|rec rest IH]; intros db c H.
  - simpl. rewrite app_nil_r, Z.add_0_r. destruct db; reflexivity.
  - simpl in H. apply andb_true_iff in H as [Hrec Hrest].
    unfold processable in Hrec. apply andb_true_iff in Hrec as [Hins Hcal].
    cbn [for_loop loop_body].
    destruct (insert_transaction_spec (transactions db) (materialize rec))
      as [[_ E]|[E _]]; [|congruence].
    rewrite E, (update_next_occurrence_done now today rec _ Hcal).
    cbn [and_then]. rewrite IH by exact Hrest.
    cbn [transactions recurring_transactions map fold_left List.length].
    rewrite <- app_assoc. cbn [app].
    replace (c + 1 + Z.of_nat (List.length rest))
      with (c + Z.of_nat (S (List.length rest))) by lia.
    reflexivity.
Qed.

(** The loop on rows of the table for one of which a statement of the
    body fails. *)
Lemma for_loop_raised
    (now : timestamptz) (today : date) (rows : list recurring_transaction) :
  forall (db : database) (c : Z),
    forallb (processable today) rows = false ->
    (forall rec, In rec rows -> In (id rec) (map id (recurring_transactions db))) ->
    exists e, for_loop now today rows (db, c) = Raised e.
Proof.
  induction rows as [|rec rest IH]; intros db c H Hids; [discriminate|].
  simpl in H. cbn [for_loop loop_body].
  destruct (insert_transaction_spec (transactions db) (materialize rec))
    as [[Hok E]|[Hko [e E]]]; rewrite E; cbn [and_then]; [|eauto].
  destruct (reschedulable today rec) eqn:Hcal.
  - rewrite (update_next_occurrence_done now today rec _ Hcal). cbn [and_then].
    apply IH.
    + unfold processable in H at 1. rewrite Hok, Hcal in H. exact H.
    + intros x Hx. cbn [recurring_transactions].
      rewrite map_map.
      erewrite map_ext; [apply Hids; right; exact Hx|].
      intro r. apply reschedule_id.
  - destruct (update_next_occurrence_raised now today rec
                (recurring_transactions db) Hcal) as [e E'].
    + apply Hids. left. reflexivity.
    + rewrite E'. cbn [and_then]. eauto.
Qed.

Lemma same_template_id (x r : recurring_transaction) :
  same_template x r -> id x = id r.
Proof.
  intro H. specialize (H (next_occurrence r) 0).
  apply (f_equal id) in H. exact H.
Qed.

Lemma advance_reschedule (now : timestamptz) (today : date) (r : recurring_transaction) :
  reschedule now today r r = advance now today r.
Proof.
  unfold reschedule, advance.
  destruct (calculate_next_occurrence _ _ _ _); [|reflexivity].
  rewrite String.eqb_refl. reflexivity.
Qed.

Lemma fold_updates_row
    (now : timestamptz) (today : date) (r : recurring_transaction)
    (rows : list recurring_transaction) :
  (forall rec, In rec rows -> id rec = id r -> rec = r) ->
  forall x, x = r \/ x = advance now today r ->
    fold_left (fun x rec => reschedule now today rec x) rows x
    = if existsb (fun rec => String.eqb (id rec) (id r)) rows
      then advance now today r else x.
Proof.
  assert (Hadv : id (advance now today r) = id r)
    by (rewrite <- advance_reschedule; apply reschedule_id).
  assert (Htwice : reschedule now today r (advance now today r) = advance now today r).
  { unfold reschedule, advance.
    destruct (calculate_next_occurrence _ _ _ _); [|reflexivity].
    cbn [set_next_occurrence id]. rewrite String.eqb_refl. reflexivity. }
  induction rows as [|rec rest IH]; intros Huniq x Hx; [reflexivity|].
  cbn [fold_left existsb].
  assert (Hid : id x = id r) by (destruct Hx as [->| ->]; auto).
  assert (Hrest : forall rec0, In rec0 rest -> id rec0 = id r -> rec0 = r)
    by (intros; apply Huniq; simpl; auto).
  destruct (String.eqb_spec (id rec) (id r)) as [E|E].
  - assert (rec = r) by (apply Huniq; simpl; auto). subst rec.
    cbn [orb].
    assert (Hstep : reschedule now today r x = advance now today r)
      by (destruct Hx as [->| ->]; [apply advance_reschedule|exact Htwice]).
    rewrite Hstep, IH; auto.
    destruct (existsb _ rest); reflexivity.
  - cbn [orb].
    assert (Hstep : reschedule now today rec x = x).
    { unfold reschedule.
      destruct (calculate_next_occurrence _ _ _ _); [|reflexivity].
      rewrite Hid.
      rewrite (proj2 (String.eqb_neq (id r) (id rec))) by congruence.
      reflexivity. }
    rewrite Hstep. apply IH; auto.
Qed.

Lemma fold_updates_pointwise
    (now : timestamptz) (today : date) (rows tbl : list recurring_transaction) :
  fold_left (fun t rec => map (reschedule now today rec) t) rows tbl
  = map (fold_left (fun x rec => reschedule now today rec x) rows) tbl.
Proof.
  revert tbl. induction rows as [|rec rest IH]; intro tbl.
  - simpl. symmetry. apply map_id.
  - cbn [fold_left]. rewrite IH, map_map. reflexivity.
Qed.

(** With a primary key, the updates of one scan amount to rescheduling
    exactly the due rows. *)
Lemma scan_updates (now : timestamptz) (today : date) (tbl : list recurring_transaction) :
  NoDup (map id tbl) ->
  fold_left (fun t rec => map (reschedule now today rec) t)
            (filter (is_due today) tbl) tbl
  = map (fun r => if is_due today r then advance now today r else r) tbl.
Proof.
  intro ND. rewrite fold_updates_pointwise.
  apply map_ext_in. intros r Hr.
  rewrite (fold_updates_row now today r).
  - destruct (is_due today r) eqn:Hdue.
    + assert (existsb (fun rec => String.eqb (id rec) (id r))
                      (filter (is_due today) tbl) = true) as ->; [|reflexivity].
      apply existsb_exists. exists r. split.
      * apply filter_In. auto.
      * apply String.eqb_refl.
    + destruct (existsb _ _) eqn:Hex; [|reflexivity].
      apply existsb_exists in Hex as [rec [Hin Heq]].
      apply filter_In in Hin as [Hin Hd]. apply String.eqb_eq in Heq.
      assert (rec = r) by (eapply same_id_same_row; eauto).
      congruence.
  - intros rec Hin Heq. apply filter_In in Hin as [Hin _].
    eapply same_id_same_row; eauto.
  - left. reflexivity.
Qed.

(** The scan, in closed form: either every due template is materialized
    and rescheduled, or the call raises and the database is as before. *)
Lemma process_recurring_transactions_spec
    (now : timestamptz) (today : date) (db : database) :
  NoDup (map id (recurring_transactions db)) ->
  (forallb (processable today) (due_rows today db) = true
   /\ process_recurring_transactions now today db
      = (mkdb (transactions db ++ map materialize (due_rows today db))
              (map (fun r => if is_due today r then advance now today r else r)
                   (recurring_transactions db)),
         Done (Z.of_nat (List.length (due_rows today db)))))
  \/ (forallb (processable today) (due_rows today db) = false
      /\ exists e, process_recurring_transactions now today db = (db, Raised e)).
Proof.
  intro ND. unfold process_recurring_transactions, due_rows.
  destruct (forallb (processable today)
                    (filter (is_due today) (recurring_transactions db))) eqn:H.
  - left. split; [reflexivity|].
    rewrite for_loop_done by exact H.
    rewrite scan_updates by exact ND. reflexivity.
  - right. split; [reflexivity|].
    destruct (for_loop_raised now today _ db 0 H) as [e E].
    + intros rec Hrec. apply filter_In in Hrec as [Hrec _].
      apply in_map. exact Hrec.
    + rewrite E. eauto.
Qed.

Lemma advance_id (now : timestamptz) (today : date) (r : recurring_transaction) :
  id (advance now today r) = id r.
Proof. rewrite <- advance_reschedule. apply reschedule_id. Qed.


(** A row the scan processed: what the calculator returned for it. *)
Lemma processable_advance (now : timestamptz) (today : date) (r : recurring_transaction) :
  processable today r = true ->
  exists d,
    calculate_next_occurrence today
      (next_occurrence r) (frequency r) (frequency_value r) = Done d
    /\ advance now today r = set_next_occurrence r d now.
Proof.
  unfold processable, reschedulable, advance. rewrite andb_true_iff.
  intros [_ H].
  destruct (calculate_next_occurrence _ _ _ _) as [d|e]; [|discriminate].
  eauto.
Qed.

End Scan.

Section ScanClaims.

Import Migration.

(** C1: the code departs from the claim.  A daily template whose
    [next_occurrence] is 2025-08-01, five days behind, is scanned on
    2025-08-06: its transaction is dated 2025-08-01, but its new
    [next_occurrence] is 2025-08-07, one day after the day of the call,
    and not 2025-08-02, one day after its own [next_occurrence]; a second
    scan on the same day finds nothing due.  The calculator's first
    parameter bears a reserved word as its name, which the store refuses
    in a declaration and reads as the day of the call in the body. *)
Theorem scan_advances_from_the_day_of_the_call :
  next_occurrence Examples.parking = mkdate 2025 8 1
  /\ process_recurring_transactions 1 (mkdate 2025 8 6)
       (Examples.db_of [Examples.parking; Examples.gym])
     = (mkdb [materialize Examples.parking]
             [set_next_occurrence Examples.parking (mkdate 2025 8 7) 1;
              Examples.gym],
        Done 1)
  /\ t_date (materialize Examples.parking) = mkdate 2025 8 1
  /\ process_recurring_transactions 2 (mkdate 2025 8 6)
       (mkdb [materialize Examples.parking]
             [set_next_occurrence Examples.parking (mkdate 2025 8 7) 1;
              Examples.gym])
     = (mkdb [materialize Examples.parking]
             [set_next_occurrence Examples.parking (mkdate 2025 8 7) 1;
              Examples.gym],
        Done 0)
  /\ create_calculate_next_occurrence = Raised syntax_error.
Proof. repeat split; reflexivity. Qed.

(** C2.  The scan's query selects a template exactly when it is active,
    its [next_occurrence] is not after today and, if it has an end date,
    not after that end date.  A template that is not selected, in
    particular one whose [next_occurrence] lies after its end date, is
    still in the table unchanged after the scan and none of the
    transactions the scan inserted comes from it; when the scan returns a
    count, every selected template has been materialized and carries the
    date the calculator returned for it. *)
Theorem scan_selection
    (now : timestamptz) (today : date) (db : database) (r : recurring_transaction) :
  NoDup (map id (recurring_transactions db)) ->
  In r (recurring_transactions db) ->
  let db' := fst (process_recurring_transactions now today db) in
  (is_due today r = true <->
   is_active r = true
   /\ date_le (next_occurrence r) today
   /\ (end_date r = None
       \/ exists e, end_date r = Some e /\ date_le (next_occurrence r) e))
  /\ (forall e, end_date r = Some e -> date_lt e (next_occurrence r) ->
      is_due today r = false)
  /\ (is_due today r = false ->
      In r (recurring_transactions db')
      /\ (forall r', In r' (recurring_transactions db') -> id r' = id r -> r' = r)
      /\ exists rows,
          transactions db' = transactions db ++ map materialize rows
          /\ incl rows (recurring_transactions db)
          /\ ~ In r rows)
  /\ (is_due today r = true ->
      forall n, snd (process_recurring_transactions now today db) = Done n ->
      In (materialize r) (transactions db')
      /\ exists d,
          calculate_next_occurrence today
            (next_occurrence r) (frequency r) (frequency_value r) = Done d
          /\ In (set_next_occurrence r d now) (recurring_transactions db')).
Proof.
  intros ND Hin db'.
  assert (Hsel : is_due today r = true <->
                 is_active r = true
                 /\ date_le (next_occurrence r) today
                 /\ (end_date r = None
                     \/ exists e, end_date r = Some e
                                  /\ date_le (next_occurrence r) e)).
  { unfold is_due, date_le. rewrite !andb_true_iff.
    destruct (end_date r) as [e|].
    - split.
      + intros [[Ha Ht] He]. repeat split; auto. right. eauto.
      + intros [Ha [Ht [He|[e' [Ee He]]]]]; [discriminate|].
        inversion Ee; subst. auto.
    - split.
      + intros [[Ha Ht] _]. auto.
      + intros [Ha [Ht _]]. auto. }
  split; [exact Hsel|]. split; [|split].
  - intros e He Hlt.
    destruct (is_due today r) eqn:Hd; [|reflexivity].
    destruct (proj1 Hsel eq_refl) as [_ [_ [Hn|[e' [Ee Hle]]]]]; [congruence|].
    rewrite He in Ee. inversion Ee; subst.
    exfalso. exact (date_lt_not_le _ _ Hlt Hle).
  - intro Hnot. subst db'.
    destruct (process_recurring_transactions_spec now today db ND)
      as [[_ E]|[_ [e E]]]; rewrite E; cbn [fst transactions recurring_transactions].
    + split; [|split].
      * apply in_map_iff. exists r. rewrite Hnot. auto.
      * intros r' Hr' Hid.
        apply in_map_iff in Hr' as [x [Hx Hxin]].
        assert (x = r).
        { eapply same_id_same_row; eauto.
          rewrite <- Hid, <- Hx.
          destruct (is_due today x); [symmetry; apply advance_id|reflexivity]. }
        subst x. rewrite Hnot in Hx. congruence.
      * exists (due_rows today db). split; [reflexivity|]. split.
        -- intros x Hx. apply filter_In in Hx. tauto.
        -- intro Hx. apply filter_In in Hx. destruct Hx. congruence.
    + split; [exact Hin|]. split.
      * intros r' Hr' Hid. eapply same_id_same_row; eauto.
      * exists []. rewrite app_nil_r. repeat split; auto.
        intros x [].
  - intros Hdue n Hn. subst db'.
    destruct (process_recurring_transactions_spec now today db ND)
      as [[Hall E]|[_ [e E]]]; rewrite E in Hn |- *; cbn [snd] in Hn;
      [|discriminate].
    cbn [fst transactions recurring_transactions].
    assert (Hr : In r (due_rows today db)) by (apply filter_In; auto).
    split.
    + apply in_or_app. right. apply in_map. exact Hr.
    + rewrite forallb_forall in Hall.
      destruct (processable_advance now today r (Hall r Hr)) as (d & Hd & Ha).
      exists d. split; [exact Hd|].
      apply in_map_iff. exists r. rewrite Hdue, Ha. auto.
Qed.

Lemma scan_selection_witness :
  is_due (mkdate 2025 8 6) Examples.gym = false
  /\ In (materialize Examples.parking)
        (transactions
           (fst (process_recurring_transactions 1 (mkdate 2025 8 6)
                   (Examples.db_of [Examples.parking; Examples.gym])))).
Proof.
  split.
  - refine (proj1 (proj2 (scan_selection 1 (mkdate 2025 8 6)
                     (Examples.db_of [Examples.parking; Examples.gym])
                     Examples.gym _ _))
              (mkdate 2025 7 31) _ _).
    + repeat constructor; simpl; intuition discriminate.
    + simpl. auto.
    + reflexivity.
    + reflexivity.
  - refine (proj1 (proj2 (proj2 (proj2 (scan_selection 1 (mkdate 2025 8 6)
                     (Examples.db_of [Examples.parking; Examples.gym])
                     Examples.parking _ _)))
              _ 1 _)).
    + repeat constructor; simpl; intuition discriminate.
    + simpl. auto.
    + reflexivity.
    + reflexivity.
Defined.

(** C4, as stated, fails: with two due templates of which one has an
    amount that [public.transactions] cannot hold, the scan raises; the
    other template is then neither materialized nor advanced, whichever
    of the two comes first, although on its own it is processed.  The
    same happens when it is the calculator that raises for one of them. *)
Lemma one_failure_aborts_the_scan :
  is_due (mkdate 2025 8 1) Examples.salary = true
  /\ processable (mkdate 2025 8 1) Examples.salary = true
  /\ process_recurring_transactions 1 (mkdate 2025 8 1)
       (Examples.db_of [Examples.mortgage; Examples.salary])
     = (Examples.db_of [Examples.mortgage; Examples.salary],
        Raised numeric_value_out_of_range)
  /\ process_recurring_transactions 1 (mkdate 2025 8 1)
       (Examples.db_of [Examples.salary; Examples.mortgage])
     = (Examples.db_of [Examples.salary; Examples.mortgage],
        Raised numeric_value_out_of_range)
  /\ process_recurring_transactions 1 (mkdate 2025 8 1)
       (Examples.db_of [Examples.salary; Examples.comet])
     = (Examples.db_of [Examples.salary; Examples.comet],
        Raised datetime_field_overflow)
  /\ process_recurring_transactions 1 (mkdate 2025 8 1)
       (Examples.db_of [Examples.salary])
     = (mkdb [materialize Examples.salary]
             [set_next_occurrence Examples.salary (mkdate 2025 9 1) 1],
        Done 1).
Proof. repeat split; vm_compute; reflexivity. Qed.

(** C4, amended.  A scan is all or nothing.  When, for every due
    template, the insert is accepted and the calculator returns, every
    due template is materialized and rescheduled and the scan returns
    their number.  When for some due template the insert is refused or
    the calculator raises, the scan raises an error to the caller and the
    database is as it was before the call: no due template of that scan,
    before or after the failing one, ends up processed. *)
Theorem scan_is_all_or_nothing
    (now : timestamptz) (today : date) (db : database) :
  NoDup (map id (recurring_transactions db)) ->
  (forallb (processable today) (due_rows today db) = true ->
   process_recurring_transactions now today db
   = (mkdb (transactions db ++ map materialize (due_rows today db))
           (map (fun r => if is_due today r then advance now today r else r)
                (recurring_transactions db)),
      Done (Z.of_nat (List.length (due_rows today db)))))
  /\ (forall r, In r (due_rows today db) ->
        insertable (materialize r) = false
        \/ (exists e, calculate_next_occurrence today
                        (next_occurrence r) (frequency r) (frequency_value r)
                      = Raised e) ->
        exists e, process_recurring_transactions now today db = (db, Raised e)).
Proof.
  intro ND.
  destruct (process_recurring_transactions_spec now today db ND)
    as [[H E]|[H E]]; split.
  - intros _. exact E.
  - intros r Hr Hbad. rewrite forallb_forall in H.
    specialize (H r Hr). unfold processable, reschedulable in H.
    apply andb_true_iff in H as [Hins Hcal].
    destruct Hbad as [Hbad|[e Hbad]]; [congruence|].
    rewrite Hbad in Hcal. discriminate.
  - congruence.
  - intros _ _ _. exact E.
Qed.

Lemma scan_is_all_or_nothing_witness :
  exists e,
    process_recurring_transactions 1 (mkdate 2025 8 1)
      (Examples.db_of [Examples.salary; Examples.coffee; Examples.mortgage])
    = (Examples.db_of [Examples.salary; Examples.coffee; Examples.mortgage],
       Raised e).
Proof.
  refine (proj2 (scan_is_all_or_nothing 1 (mkdate 2025 8 1)
                   (Examples.db_of [Examples.salary; Examples.coffee; Examples.mortgage])
                   _)
            Examples.mortgage _ _).
  - repeat constructor; simpl; intuition discriminate.
  - simpl. auto.
  - left. reflexivity.
Defined.

(** The seed scenario: a monthly template due on 2025-08-01 and scanned
    on that day yields one transaction dated that day and moves to
    2025-09-01. *)
Example salary_scanned_on_its_day :
  process_recurring_transactions 1 (mkdate 2025 8 1) (Examples.db_of [Examples.salary])
  = (mkdb [mktransaction Examples.seed_user "income" 500000 "Salary"
             "Regular monthly salary" (mkdate 2025 8 1)]
          [set_next_occurrence Examples.salary (mkdate 2025 9 1) 1],
     Done 1).
Proof. reflexivity. Qed.

End ScanClaims.

(* ================================================================== *)
(** ** Budget bookkeeping in the hook *)

Section BudgetSpent.

Import Hook.



Lemma find_budget_category (c : string) (bs : list Budget) (b : Budget) :
  find_budget c bs = Some b -> b_category b = c /\ In b bs.
Proof.
  intro H. apply find_some in H as [Hin E].
  apply String.eqb_eq in E. auto.
Qed.

Lemma find_transaction_absent (id : string) (ts : list Transaction) :
  ~ In id (map tx_id ts) -> find_transaction id ts = None.
Proof.
  intro H. unfold find_transaction.
  destruct (find _ ts) as [t|] eqn:E; [|reflexivity].
  apply find_some in E as [Hin Heq]. apply String.eqb_eq in Heq.
  exfalso. apply H. rewrite <- Heq. apply in_map. exact Hin.
Qed.








(** C10.  Deleting an id that is not in the loaded transaction list does
    nothing: no call on the store, no notification of success or error,
    and the transactions and budgets are as they were. *)
Theorem delete_unknown_id_is_noop
    (delete_error user : option string) (st : state) (id : string) :
  ~ In id (map tx_id (transactions st)) ->
  deleteTransaction delete_error user st id = (st, []).
Proof.
  intro H. unfold deleteTransaction.
  rewrite (find_transaction_absent id (transactions st) H). reflexivity.
Qed.

Lemma delete_unknown_id_is_noop_witness :
  deleteTransaction None (Some "user-1"%string) HookExamples.loaded "7"
  = (HookExamples.loaded, []).
Proof.
  apply (delete_unknown_id_is_noop None (Some "user-1"%string)
           HookExamples.loaded "7").
  simpl. intuition discriminate.
Defined.

End BudgetSpent.

(* ================================================================== *)
(** ** The schedule of a template over a session *)

Section Schedule.

Import Migration.

(** Deleting rows keeps the primary key unique. *)
Lemma delete_recurring_keeps_key (rid : uuid) (tbl : list recurring_transaction) :
  NoDup (map id tbl) -> NoDup (map id (delete_recurring tbl rid)).
Proof.
  unfold delete_recurring.
  induction tbl as [|r tbl IH]; cbn [map filter]; intro ND; [exact ND|].
  apply NoDup_cons_iff in ND as [Hfresh ND].
  destruct (negb (String.eqb (id r) rid)); [|exact (IH ND)].
  cbn [map]. apply NoDup_cons; [|exact (IH ND)].
  intro Hin. apply Hfresh.
  apply in_map_iff in Hin as [x [Hid Hx]].
  apply filter_In in Hx as [Hx _].
  rewrite <- Hid. exact (in_map id tbl x Hx).
Qed.


Lemma find_template_map
    (g : recurring_transaction -> recurring_transaction)
    (rid : uuid) (tbl : list recurring_transaction) :
  (forall r, id (g r) = id r) ->
  find_template rid (map g tbl) = option_map g (find_template rid tbl).
Proof.
  intro Hg. unfold find_template.
  induction tbl as [|r tbl IH]; [reflexivity|].
  cbn [map find]. rewrite Hg.
  destruct (String.eqb (id r) rid); [reflexivity|exact IH].
Qed.

Lemma due_is_not_after_today (today : date) (r : recurring_transaction) :
  is_due today r = true ->
  is_active r = true /\ date_le (next_occurrence r) today.
Proof.
  unfold is_due. rewrite !andb_true_iff. intros [[Ha Ht] _]. auto.
Qed.



Lemma insert_recurring_done
    (tbl tbl' : list recurring_transaction) (r : recurring_transaction) :
  insert_recurring tbl r = Done tbl' ->
  tbl' = tbl ++ [r] /\ dates_ok r = true /\ row_check r = true
  /\ ~ In (id r) (map id tbl).
Proof.
  unfold insert_recurring.
  destruct (dates_ok r); [|discriminate].
  destruct (dates_in_range r); [|discriminate].
  destruct (int4 (frequency_value r)); [|discriminate].
  destruct (row_check r); [|discriminate].
  destruct (existsb _ tbl) eqn:E; [discriminate|].
  cbn [negb andb]. intro H. inversion H; subst.
  repeat split; auto.
  intro Hin. apply in_map_iff in Hin as [x [Hid Hx]].
  pose proof (existsb_exists (fun r' => String.eqb (id r') (id r)) tbl) as [_ X].
  rewrite X in E; [discriminate|].
  exists x. split; [exact Hx|]. apply String.eqb_eq. exact Hid.
Qed.



Lemma update_done
    (now : timestamptz) (tbl tbl' : list recurring_transaction)
    (rid : uuid) (u : recurring_update) :
  update_recurring now tbl rid u = Done tbl' ->
  update_dates_ok u = true
  /\ tbl' = map (fun r => if String.eqb (id r) rid then apply_update now u r else r) tbl
  /\ forall r, In r tbl -> id r = rid -> row_check (apply_update now u r) = true.
Proof.
  unfold update_recurring.
  destruct (update_dates_ok u); [|discriminate].
  destruct (update_dates_in_range u); [|discriminate].
  destruct (update_integer_ok u); [|discriminate].
  cbn [negb andb].
  destruct (existsb _ tbl) eqn:E; [discriminate|].
  intro H. inversion H; subst. repeat split; auto.
  intros r Hin Hid.
  destruct (row_check (apply_update now u r)) eqn:R; [reflexivity|].
  exfalso.
  assert (X : existsb
                (fun r0 => String.eqb (id r0) rid
                           && negb (row_check (apply_update now u r0))) tbl = true).
  { apply existsb_exists. exists r. split; [exact Hin|].
    rewrite R. rewrite (proj2 (String.eqb_eq _ _) Hid). reflexivity. }
  congruence.
Qed.






End Schedule.

Section ScheduleClaims.

Import Migration.




End ScheduleClaims.

(* ================================================================== *)
(** ** More on the calculator: the dates it returns *)

Section CalculatorRange.

Import Migration.

(** X4.  Whatever the interval, a date the calculator returns for one of
    the four frequencies is a calendar date within the range of
    PostgreSQL's timestamps, and so of its dates, and the day it was
    computed from is a calendar date too; for any other frequency text
    the calculator returns that day as it is. *)
Theorem next_occurrence_is_a_calendar_date
    (CURRENT_DATE d : date) (f : string) (n : Z) (r : date) :
  calculate_next_occurrence CURRENT_DATE d f n = Done r ->
  (frequency_check f = true ->
   valid_date r /\ in_timestamp_range r = true /\ in_date_range r = true
   /\ valid_date CURRENT_DATE)
  /\ (frequency_check f = false -> r = CURRENT_DATE).
Proof.
  intro H.
  destruct (calculate_next_occurrence_done _ _ _ _ _ H)
    as [[Hf (i & Hi & _)]|[Hf ->]].
  - split; [intros _|congruence].
    apply date_pl_interval_done in Hi as (_ & V0 & V & R).
    split; [exact V|]. split; [exact R|].
    split; [apply timestamp_range_is_date_range; exact R|exact V0].
  - split; [congruence|reflexivity].
Qed.

Lemma next_occurrence_is_a_calendar_date_witness :
  valid_date (mkdate 2024 2 29).
Proof.
  refine (proj1 (proj1 (next_occurrence_is_a_calendar_date
                          (mkdate 2023 12 31) (mkdate 2023 12 31) "monthly" 2
                          (mkdate 2024 2 29) _) _)); reflexivity.
Defined.

End CalculatorRange.

(* ================================================================== *)
(** ** More on the scan: what it returns and what it leaves alone *)

Section ScanFrame.

Import Migration.

Lemma same_template_refl (r : recurring_transaction) : same_template r r.
Proof. intros d t. reflexivity. Qed.

Lemma same_template_set (x r : recurring_transaction) (d : date) (t : timestamptz) :
  same_template x r -> same_template (set_next_occurrence x d t) r.
Proof. intros H d' t'. rewrite <- (H d' t'). reflexivity. Qed.

Lemma same_template_trans (x y z : recurring_transaction) :
  same_template x y -> same_template y z -> same_template x z.
Proof. intros H1 H2 d t. rewrite (H1 d t). apply H2. Qed.

Lemma same_template_rows (l : list recurring_transaction) :
  Forall2 same_template l l.
Proof. induction l; constructor; auto using same_template_refl. Qed.

Lemma same_template_rows_trans (a b c : list recurring_transaction) :
  Forall2 same_template a b -> Forall2 same_template b c ->
  Forall2 same_template a c.
Proof.
  intro H. revert c. induction H as [|x y a b Hxy _ IH]; intros c Hc.
  - inversion Hc. constructor.
  - inversion Hc as [|? z ? c' Hyz Hbc]; subst.
    constructor; [exact (same_template_trans _ _ _ Hxy Hyz)|apply IH; exact Hbc].
Qed.

(** The loop body's [UPDATE] writes the two schedule columns only. *)
Lemma update_next_occurrence_same
    (now : timestamptz) (today : date) (rec : recurring_transaction)
    (tbl tbl' : list recurring_transaction) :
  update_next_occurrence now today rec tbl = Done tbl' ->
  Forall2 same_template tbl' tbl.
Proof.
  unfold update_next_occurrence.
  destruct (existsb _ tbl);
    [|intro H; inversion H; apply same_template_rows].
  destruct (calculate_next_occurrence _ _ _ _) as [d|e]; cbn [and_then];
    [|discriminate].
  intro H. inversion H. clear.
  induction tbl as [|r tbl IH]; cbn [map]; constructor; [|exact IH].
  destruct (String.eqb (id r) (id rec));
    [apply same_template_set|]; apply same_template_refl.
Qed.

(** What a loop that ran through has done. *)
Lemma for_loop_ran
    (now : timestamptz) (today : date) (rows : list recurring_transaction) :
  forall db c db' c',
    for_loop now today rows (db, c) = Done (db', c') ->
    transactions db' = transactions db ++ map materialize rows
    /\ Forall2 same_template (recurring_transactions db') (recurring_transactions db)
    /\ c' = c + Z.of_nat (List.length rows)
    /\ (rows = [] -> db' = db).
Proof.
  induction rows as [|rec rest IH]; intros db c db' c' H.
  - cbn in H. inversion H; subst. rewrite app_nil_r.
    repeat split; auto using same_template_rows. cbn. lia.
  - cbn [for_loop loop_body] in H.
    destruct (insert_transaction_spec (transactions db) (materialize rec))
      as [[Hok E]|[_ [e E]]]; rewrite E in H; cbn [and_then] in H; [|discriminate].
    destruct (update_next_occurrence now today rec (recurring_transactions db))
      as [tbl1|e] eqn:U; cbn [and_then] in H; [|discriminate].
    apply update_next_occurrence_same in U.
    apply IH in H as (Ht & Hr & Hc & _).
    cbn [transactions recurring_transactions] in Ht, Hr.
    split; [rewrite Ht, <- app_assoc; reflexivity|].
    split; [exact (same_template_rows_trans _ _ _ Hr U)|].
    split; [cbn [List.length]; lia|discriminate].
Qed.

Lemma scan_rows_same_template (now : timestamptz) (today : date) (db : database) :
  Forall2 same_template
    (recurring_transactions (fst (process_recurring_transactions now today db)))
    (recurring_transactions db).
Proof.
  unfold process_recurring_transactions.
  destruct (for_loop now today _ (db, 0)) as [[db' c']|e] eqn:E;
    [|apply same_template_rows].
  apply for_loop_ran in E as (_ & Hr & _ & _). exact Hr.
Qed.

(** X5.  A scan writes nothing but [next_occurrence] and [updated_at]:
    the table keeps its rows in place, and each row keeps its id, owner,
    amount, category, type, frequency, interval, start date, end date and
    active flag.  In particular the scan never deactivates or removes a
    template, not even one that has run past its end date. *)
Theorem scan_writes_only_the_schedule
    (now : timestamptz) (today : date) (db : database) :
  Forall2
    (fun r' r =>
       id r' = id r /\ user_id r' = user_id r /\ name r' = name r
       /\ type r' = type r /\ amount r' = amount r /\ category r' = category r
       /\ description r' = description r
       /\ frequency r' = frequency r /\ frequency_value r' = frequency_value r
       /\ start_date r' = start_date r /\ end_date r' = end_date r
       /\ is_active r' = is_active r /\ created_at r' = created_at r)
    (recurring_transactions (fst (process_recurring_transactions now today db)))
    (recurring_transactions db).
Proof.
  eapply Forall2_impl; [|apply scan_rows_same_template].
  intros r' r H. specialize (H (next_occurrence r) 0).
  repeat split;
    match goal with
    | |- ?f r' = ?f r => exact (f_equal f H)
    end.
Qed.

(** X6.  Every transaction a scan adds comes from a due, active template
    and carries that template's scheduled date, owner, category and type,
    and its amount rounded to two decimal places; its date is the missed
    occurrence, never a day after today.  The transactions that were
    there before are all kept. *)
Theorem scan_inserts_are_backdated
    (now : timestamptz) (today : date) (db : database) (v : transaction) :
  (In v (transactions db) ->
   In v (transactions (fst (process_recurring_transactions now today db))))
  /\ (In v (transactions (fst (process_recurring_transactions now today db))) ->
      In v (transactions db)
      \/ exists r,
          In r (recurring_transactions db) /\ is_active r = true
          /\ t_date v = next_occurrence r /\ date_le (t_date v) today
          /\ t_user_id v = user_id r
          /\ t_amount v = Numeric.to_scale_2 (amount r)
          /\ t_category v = category r /\ t_type v = type r).
Proof.
  unfold process_recurring_transactions.
  destruct (for_loop now today _ (db, 0)) as [[db' c']|e] eqn:E; cbn [fst]; [|tauto].
  apply for_loop_ran in E as (Ht & _ & _ & _). rewrite Ht. split.
  - intro H. apply in_or_app. auto.
  - intro H. apply in_app_or in H as [H|H]; [auto|right].
    apply in_map_iff in H as [r [<- Hr]].
    apply filter_In in Hr as [Hin Hdue].
    destruct (due_is_not_after_today today r Hdue) as [Ha Hle].
    exists r. cbn [materialize t_date t_user_id t_amount t_category t_type].
    repeat split; auto.
Qed.

(** X7.  The number a scan returns is the number of templates that were
    due, which is also the number of transactions it added; the template
    table has as many rows as before. *)
Theorem scan_count_is_the_number_added
    (now : timestamptz) (today : date) (db db' : database) (n : Z) :
  process_recurring_transactions now today db = (db', Done n) ->
  n = Z.of_nat (List.length (due_rows today db))
  /\ Z.of_nat (List.length (transactions db'))
     = Z.of_nat (List.length (transactions db)) + n
  /\ List.length (recurring_transactions db')
     = List.length (recurring_transactions db)
  /\ (n = 0 -> db' = db).
Proof.
  intro H. pose proof (scan_rows_same_template now today db) as F.
  rewrite H in F. cbn [fst] in F. apply Forall2_length in F.
  unfold process_recurring_transactions in H.
  destruct (for_loop now today _ (db, 0)) as [[db1 c1]|e] eqn:E; [|discriminate].
  inversion H; subst db1 c1. clear H.
  apply for_loop_ran in E as (Ht & _ & Hc & Hnil).
  fold (due_rows today db) in Ht, Hc, Hnil.
  split; [lia|]. split.
  - rewrite Ht, length_app, length_map. lia.
  - split; [exact F|].
    intro Hn. apply Hnil.
    destruct (due_rows today db) as [|x l]; [reflexivity|cbn in Hc; lia].
Qed.

Lemma scan_count_is_the_number_added_witness :
  1 = Z.of_nat (List.length (due_rows (mkdate 2025 8 6)
                               (Examples.db_of [Examples.parking; Examples.gym]))).
Proof.
  refine (proj1 (scan_count_is_the_number_added 1 (mkdate 2025 8 6)
                   (Examples.db_of [Examples.parking; Examples.gym])
                   (mkdb [materialize Examples.parking]
                         [advance 1 (mkdate 2025 8 6) Examples.parking; Examples.gym])
                   1 _)).
  reflexivity.
Defined.

(** X8.  When every template is paused, scheduled after today, or past
    its end date, the scan returns 0 and the database is exactly as
    before: no row is rewritten, not even its [updated_at]. *)
Theorem scan_with_nothing_due (now : timestamptz) (today : date) (db : database) :
  (forall r, In r (recurring_transactions db) ->
             is_active r = false
             \/ date_lt today (next_occurrence r)
             \/ exists e, end_date r = Some e /\ date_lt e (next_occurrence r)) ->
  process_recurring_transactions now today db = (db, Done 0).
Proof.
  intro H.
  assert (E : filter (is_due today) (recurring_transactions db) = []).
  { induction (recurring_transactions db) as [|r tbl IH]; [reflexivity|].
    cbn [filter].
    assert (Hr : is_due today r = false).
    { unfold is_due.
      destruct (H r (or_introl eq_refl)) as [Ha|[Hl|[e [He Hl]]]].
      - rewrite Ha. reflexivity.
      - destruct (date_leb (next_occurrence r) today) eqn:L;
          [|rewrite andb_false_r; reflexivity].
        exfalso. exact (date_lt_not_le _ _ Hl L).
      - rewrite He.
        destruct (date_leb (next_occurrence r) e) eqn:L;
          [|rewrite andb_false_r; reflexivity].
        exfalso. exact (date_lt_not_le _ _ Hl L). }
    rewrite Hr. apply IH. intros x Hx. apply H. right. exact Hx. }
  unfold process_recurring_transactions. rewrite E. reflexivity.
Qed.

Lemma scan_with_nothing_due_witness :
  process_recurring_transactions 5 (mkdate 2025 7 31)
    (Examples.db_of [Examples.salary; Examples.gym])
  = (Examples.db_of [Examples.salary; Examples.gym], Done 0).
Proof.
  apply (scan_with_nothing_due 5 (mkdate 2025 7 31)
           (Examples.db_of [Examples.salary; Examples.gym])).
  intros r [<-|[<-|[]]]; right; left; reflexivity.
Defined.

(** X9.  A template that is due stays due on every later day until a
    scan processes it or it is edited: being due depends on today only
    through [next_occurrence <= today]. *)
Theorem due_stays_due (today later : date) (r : recurring_transaction) :
  is_due today r = true -> date_le today later -> is_due later r = true.
Proof.
  unfold is_due. rewrite !andb_true_iff. intros [[Ha Ht] He] Hl.
  repeat split; auto.
  exact (date_le_trans _ _ _ Ht Hl).
Qed.

Lemma due_stays_due_witness :
  is_due (mkdate 2026 1 1) Examples.parking = true.
Proof.
  apply (due_stays_due (mkdate 2025 8 6) (mkdate 2026 1 1) Examples.parking);
    reflexivity.
Defined.

End ScanFrame.

(* ================================================================== *)
(** ** More on the template table: sessions, edits, look-ups *)

Section TemplateTable.

Import Migration.
Import RecurringPage.

Lemma scan_keeps_key (now : timestamptz) (today : date) (db : database) :
  map id (recurring_transactions (fst (process_recurring_transactions now today db)))
  = map id (recurring_transactions db).
Proof.
  pose proof (scan_rows_same_template now today db) as F.
  induction F as [|r' r l' l H _ IH]; [reflexivity|].
  cbn [map]. rewrite IH, (same_template_id r' r H). reflexivity.
Qed.

Lemma advance_consistent (now : timestamptz) (today : date) (r : recurring_transaction) :
  dates_ok r = true /\ row_check r = true ->
  dates_ok (advance now today r) = true /\ row_check (advance now today r) = true.
Proof.
  intros [Hd Hr]. unfold advance.
  destruct (calculate_next_occurrence today (next_occurrence r)
              (frequency r) (frequency_value r)) as [d|e] eqn:C; [|auto].
  split; [|exact Hr].
  unfold row_check in Hr. apply andb_true_iff in Hr as [_ Hf].
  unfold dates_ok in *. rewrite !andb_true_iff in *.
  destruct Hd as [[Hs Hn] He].
  cbn [set_next_occurrence start_date next_occurrence end_date].
  split; [split; [exact Hs|]|exact He].
  apply valid_dateb_iff.
  exact (proj1 (calculate_next_occurrence_valid _ _ _ _ _ C Hf)).
Qed.

Lemma scan_consistent (now : timestamptz) (today : date) (db : database) :
  store_consistent (recurring_transactions db) ->
  store_consistent
    (recurring_transactions (fst (process_recurring_transactions now today db))).
Proof.
  intros [ND Hall]. split; [rewrite scan_keeps_key; exact ND|].
  destruct (process_recurring_transactions_spec now today db ND)
    as [[_ E]|[_ [e E]]]; rewrite E; cbn [fst recurring_transactions]; [|exact Hall].
  apply Forall_map. revert Hall. apply Forall_impl. intros r Hr.
  destruct (is_due today r); auto using advance_consistent.
Qed.

Lemma add_consistent
    (user : option string) (rpc_answers : bool) (new_id : uuid)
    (now : timestamptz) (today : date) (input : Hook.NewRecurringTransaction)
    (tbl : list recurring_transaction) :
  store_consistent tbl ->
  store_consistent
    (Hook.addRecurringTransaction user rpc_answers new_id now today input tbl).
Proof.
  intros [ND Hall]. unfold Hook.addRecurringTransaction.
  destruct user as [user_id|]; [|split; assumption].
  destruct (Hook.r_amount input) as [a|]; [|split; assumption].
  match goal with
  | |- context [insert_recurring tbl ?row] =>
      destruct (insert_recurring tbl row) as [tbl'|e] eqn:E
  end; [|split; assumption].
  apply insert_recurring_done in E as (-> & Hdates & Hrow & Hfresh).
  split.
  - rewrite map_app. apply NoDup_app; auto.
    + repeat constructor. intros [].
    + intros x Ha [Hb|[]]. subst x. exact (Hfresh Ha).
  - apply Forall_app. split; [exact Hall|]. repeat constructor; assumption.
Qed.

Lemma update_consistent
    (now : timestamptz) (rid : string) (updates : Hook.RecurringUpdates)
    (tbl : list recurring_transaction) :
  store_consistent tbl ->
  store_consistent (Hook.updateRecurringTransaction now rid updates tbl).
Proof.
  intros [ND Hall]. unfold Hook.updateRecurringTransaction.
  assert (G : store_consistent
                match update_recurring now tbl rid (Hook.updateData updates) with
                | Done tbl' => tbl'
                | Raised _ => tbl
                end).
  { destruct (update_recurring now tbl rid (Hook.updateData updates))
      as [tbl'|e] eqn:E; [|split; assumption].
    apply update_done in E as (Hdates & -> & Hrows). split.
    - rewrite map_map. erewrite map_ext; [exact ND|].
      intro r. destruct (String.eqb (id r) rid); reflexivity.
    - apply Forall_map. rewrite Forall_forall in Hall |- *.
      intros r Hin. destruct (String.eqb_spec (id r) rid) as [Hid|Hid]; [|auto].
      split; [|auto].
      destruct (Hall r Hin) as [Hd _].
      unfold update_dates_ok in Hdates. apply andb_true_iff in Hdates as [Us Ue].
      unfold dates_ok in *. rewrite !andb_true_iff in *.
      destruct Hd as [[Hs Hn] He].
      cbn [apply_update start_date next_occurrence end_date].
      repeat split.
      + destruct (set_start_date (Hook.updateData updates)); assumption.
      + exact Hn.
      + destruct (set_end_date (Hook.updateData updates)); assumption. }
  destruct (Hook.u_amount updates) as [[a|]|]; [exact G|split; assumption|exact G].
Qed.

Lemma delete_consistent (rid : string) (tbl : list recurring_transaction) :
  store_consistent tbl -> store_consistent (Hook.deleteRecurringTransaction rid tbl).
Proof.
  intros [ND Hall]. split.
  - apply delete_recurring_keeps_key. exact ND.
  - unfold Hook.deleteRecurringTransaction, delete_recurring.
    rewrite Forall_forall in Hall |- *. intros r Hr.
    apply filter_In in Hr as [Hr _]. auto.
Qed.

Lemma run_consistent (actions : list Hook.action) :
  forall db,
    store_consistent (recurring_transactions db) ->
    store_consistent (recurring_transactions (Hook.run db actions)).
Proof.
  unfold Hook.run.
  induction actions as [|a rest IH]; intros db Hdb; [exact Hdb|].
  cbn [fold_left]. apply IH.
  destruct a; cbn [Hook.apply_action Hook.on_templates recurring_transactions].
  - apply add_consistent. exact Hdb.
  - apply update_consistent. exact Hdb.
  - apply delete_consistent. exact Hdb.
  - apply scan_consistent. exact Hdb.
Qed.

(** X10.  Whatever a session does (creating, editing, deleting templates
    and scanning, with any arguments and any failures), the template table
    keeps what its definition demands: no two rows share an id, start
    date, next occurrence and end date are calendar dates, the type is
    income or expense and the frequency one of the four. *)
Theorem session_keeps_table_constraints (actions : list Hook.action) :
  let tbl := recurring_transactions (Hook.run Hook.empty_db actions) in
  NoDup (map id tbl)
  /\ forall r, In r tbl ->
       valid_date (start_date r) /\ valid_date (next_occurrence r)
       /\ (forall e, end_date r = Some e -> valid_date e)
       /\ type_check (type r) = true
       /\ frequency_check (frequency r) = true.
Proof.
  intro tbl.
  assert (C : store_consistent tbl).
  { apply run_consistent. split; cbn; constructor. }
  destruct C as [ND Hall]. split; [exact ND|].
  intros r Hin. rewrite Forall_forall in Hall.
  destruct (Hall r Hin) as [Hd Hr].
  unfold dates_ok in Hd. rewrite !andb_true_iff in Hd.
  destruct Hd as [[Hs Hn] He].
  unfold row_check in Hr. apply andb_true_iff in Hr as [Ht Hf].
  split; [apply valid_dateb_iff; exact Hs|].
  split; [apply valid_dateb_iff; exact Hn|].
  split; [|split; assumption].
  intros e Ee. rewrite Ee in He. apply valid_dateb_iff. exact He.
Qed.

(** X11.  Editing a template never reschedules it: whatever the update
    object holds (a new frequency, interval or start date, even a
    [nextOccurrence]), the store's [next_occurrence] of every row is what
    it was, and so are the ids and creation times. *)
Theorem edit_never_reschedules
    (now : timestamptz) (rid : string) (updates : Hook.RecurringUpdates)
    (tbl : list recurring_transaction) :
  map next_occurrence (Hook.updateRecurringTransaction now rid updates tbl)
  = map next_occurrence tbl
  /\ map id (Hook.updateRecurringTransaction now rid updates tbl) = map id tbl
  /\ map created_at (Hook.updateRecurringTransaction now rid updates tbl)
     = map created_at tbl.
Proof.
  unfold Hook.updateRecurringTransaction.
  assert (G : forall tbl1,
             tbl1 = match update_recurring now tbl rid (Hook.updateData updates) with
                    | Done tbl' => tbl'
                    | Raised _ => tbl
                    end ->
             map next_occurrence tbl1 = map next_occurrence tbl
             /\ map id tbl1 = map id tbl
             /\ map created_at tbl1 = map created_at tbl).
  { intros tbl1 ->.
    destruct (update_recurring now tbl rid (Hook.updateData updates))
      as [tbl'|e] eqn:E; [|auto].
    apply update_done in E as (_ & -> & _).
    rewrite !map_map.
    repeat split; apply map_ext; intro r;
      destruct (String.eqb (id r) rid); reflexivity. }
  destruct (Hook.u_amount updates) as [[a|]|]; auto.
Qed.

End TemplateTable.

Section TemplateLifecycle.

Import Migration.
Import RecurringPage.




Lemma find_template_delete (rid rid' : uuid) (tbl : list recurring_transaction) :
  find_template rid' (delete_recurring tbl rid)
  = if String.eqb rid' rid then None else find_template rid' tbl.
Proof.
  unfold find_template, delete_recurring.
  induction tbl as [|r tbl IH]; cbn [filter find].
  - destruct (String.eqb rid' rid); reflexivity.
  - destruct (String.eqb_spec (id r) rid) as [E|E]; cbn [negb find].
    + rewrite IH. destruct (String.eqb_spec rid' rid) as [E'|E']; [reflexivity|].
      destruct (String.eqb_spec (id r) rid') as [E2|_]; [congruence|reflexivity].
    + destruct (String.eqb_spec (id r) rid') as [E2|E2].
      * destruct (String.eqb_spec rid' rid) as [E'|_]; [congruence|reflexivity].
      * exact IH.
Qed.

(** X13.  After a template is deleted no row answers to its id, every
    other id is found exactly as before, and deleting an id the table
    does not hold changes nothing. *)
Theorem deleted_template_is_gone (rid : string) (tbl : list recurring_transaction) :
  find_template rid (Hook.deleteRecurringTransaction rid tbl) = None
  /\ (forall rid', rid' <> rid ->
        find_template rid' (Hook.deleteRecurringTransaction rid tbl)
        = find_template rid' tbl)
  /\ (find_template rid tbl = None ->
      Hook.deleteRecurringTransaction rid tbl = tbl).
Proof.
  unfold Hook.deleteRecurringTransaction. split; [|split].
  - rewrite find_template_delete, String.eqb_refl. reflexivity.
  - intros rid' Hne. rewrite find_template_delete.
    destruct (String.eqb_spec rid' rid); [contradiction|reflexivity].
  - intro Hnone. unfold delete_recurring.
    induction tbl as [|r tbl IH]; [reflexivity|].
    unfold find_template in Hnone. cbn [find] in Hnone. cbn [filter].
    destruct (String.eqb (id r) rid); [discriminate|].
    cbn [negb]. f_equal. apply IH. exact Hnone.
Qed.

Lemma scan_skips_inactive
    (now : timestamptz) (today : date) (db : database)
    (rid : uuid) (r : recurring_transaction) :
  NoDup (map id (recurring_transactions db)) ->
  find_template rid (recurring_transactions db) = Some r ->
  is_active r = false ->
  find_template rid
    (recurring_transactions (fst (process_recurring_transactions now today db)))
  = Some r.
Proof.
  intros ND Hf Ha.
  destruct (process_recurring_transactions_spec now today db ND)
    as [[_ E]|[_ [e E]]]; rewrite E; cbn [fst recurring_transactions]; [|exact Hf].
  rewrite find_template_map, Hf
    by (intro x; destruct (is_due today x); [apply advance_id|reflexivity]).
  cbn [option_map]. unfold is_due. rewrite Ha. reflexivity.
Qed.

(** X14.  Pausing works: on a table that meets its constraints, switching
    a template off through the page's toggle is accepted by the store,
    leaves its [next_occurrence] alone, and from then on no scan, however
    many are run and on whatever day, changes the template. *)
Theorem paused_template_is_never_scanned
    (now : timestamptz) (rid : string) (tbl : list recurring_transaction)
    (r : recurring_transaction) :
  store_consistent tbl ->
  find_template rid tbl = Some r ->
  exists r1,
    find_template rid (handleToggleActive now rid false tbl) = Some r1
    /\ is_active r1 = false
    /\ next_occurrence r1 = next_occurrence r
    /\ forall (scans : list (timestamptz * date)) (txs : list transaction),
        find_template rid
          (recurring_transactions
             (Hook.run (mkdb txs (handleToggleActive now rid false tbl))
                (map (fun s => Hook.Process (fst s) (snd s)) scans)))
        = Some r1.
Proof.
  intros [ND Hall] Hf.
  assert (C1 : store_consistent (handleToggleActive now rid false tbl))
    by (apply update_consistent; split; assumption).
  assert (E : handleToggleActive now rid false tbl
              = map (fun x => if String.eqb (id x) rid
                              then apply_update now
                                     (Hook.updateData (only_isActive false)) x
                              else x) tbl).
  { unfold handleToggleActive, Hook.updateRecurringTransaction, update_recurring.
    cbn [only_isActive Hook.u_amount].
    change (update_dates_ok (Hook.updateData (only_isActive false))) with true.
    change (update_dates_in_range (Hook.updateData (only_isActive false))) with true.
    change (update_integer_ok (Hook.updateData (only_isActive false))) with true.
    cbn [andb negb].
    assert (X : existsb
                  (fun x => String.eqb (id x) rid
                            && negb (row_check
                                       (apply_update now
                                          (Hook.updateData (only_isActive false)) x)))
                  tbl = false).
    { destruct (existsb _ tbl) eqn:X; [|reflexivity].
      apply existsb_exists in X as [x [Hx Hb]].
      rewrite Forall_forall in Hall. destruct (Hall x Hx) as [_ Hr].
      apply andb_true_iff in Hb as [_ Hb].
      unfold row_check in *. cbn in Hb. rewrite Hr in Hb. discriminate. }
    rewrite X. reflexivity. }
  exists (apply_update now (Hook.updateData (only_isActive false)) r).
  assert (F1 : find_template rid (handleToggleActive now rid false tbl)
               = Some (apply_update now (Hook.updateData (only_isActive false)) r)).
  { rewrite E, find_template_map, Hf
      by (intro x; destruct (String.eqb (id x) rid); reflexivity).
    cbn [option_map].
    apply find_some in Hf as [_ Hid]. rewrite Hid. reflexivity. }
  split; [exact F1|]. split; [reflexivity|]. split; [reflexivity|].
  intros scans txs.
  generalize (handleToggleActive now rid false tbl) C1 F1. clear.
  intros tbl1. revert txs tbl1.
  unfold Hook.run.
  induction scans as [|[now' today] rest IH]; intros txs tbl1 C1 F1; [exact F1|].
  cbn [map fold_left fst snd Hook.apply_action].
  unfold Hook.processRecurringTransactions.
  pose proof (scan_consistent now' today (mkdb txs tbl1) C1) as C2.
  pose proof (scan_skips_inactive now' today (mkdb txs tbl1) rid _
                (proj1 C1) F1 eq_refl) as F2.
  destruct (fst (process_recurring_transactions now' today (mkdb txs tbl1)))
    as [txs2 tbl2].
  cbn [recurring_transactions] in C2, F2.
  apply IH; assumption.
Qed.

Lemma paused_template_is_never_scanned_witness :
  option_map next_occurrence
    (find_template "rt-parking"%string
       (recurring_transactions
          (Hook.run
             (mkdb [] (handleToggleActive 7 "rt-parking" false
                         [Examples.parking; Examples.salary]))
             [Hook.Process 8 (mkdate 2025 8 6)])))
  = Some (mkdate 2025 8 1).
Proof.
  destruct (paused_template_is_never_scanned 7 "rt-parking"
              [Examples.parking; Examples.salary] Examples.parking)
    as (r1 & _ & _ & Hn & Hs).
  - split.
    + repeat constructor; simpl; intuition discriminate.
    + repeat constructor.
  - reflexivity.
  - pose proof (Hs [(8, mkdate 2025 8 6)] []) as H. cbn [map fst snd] in H.
    rewrite H. cbn [option_map]. rewrite Hn. reflexivity.
Defined.

End TemplateLifecycle.

(* ================================================================== *)
(** ** More on the hook: failures and frames *)

Section HookOutcomes.

Import Hook.

(** X16.  A failed add or delete changes nothing.  Without a session
    [addTransaction] does not even call the store's insert; without a
    session or with the insert refused, the state is as before, the
    budgets are not written to, and an error notification is shown.  A
    refused delete likewise leaves the transaction list and the budgets
    as they were and shows the store's message. *)
Theorem failed_calls_change_nothing
    (st : state) (transaction : NewTransaction) (id : string) :
  (forall reply,
      let r := addTransaction None reply st transaction in
      fst r = st
      /\ (forall u row, ~ In (transactions_insert u row) (snd r))
      /\ (forall s u c, ~ In (budgets_update_spent s u c) (snd r))
      /\ In (toast "Error adding transaction" "User not authenticated" true) (snd r))
  /\ (forall user message,
        let r := addTransaction user (inl message) st transaction in
        fst r = st
        /\ (forall s u c, ~ In (budgets_update_spent s u c) (snd r))
        /\ exists m, In (toast "Error adding transaction" m true) (snd r))
  /\ (forall user message t,
        find_transaction id (transactions st) = Some t ->
        let r := deleteTransaction (Some message) user st id in
        fst r = st
        /\ (forall s u c, ~ In (budgets_update_spent s u c) (snd r))
        /\ In (toast "Error deleting transaction" message true) (snd r)).
Proof.
  split; [|split].
  - intros reply r. subst r. cbn [addTransaction fst snd].
    repeat split; intros; cbn [In]; intuition discriminate.
  - intros user message r. subst r. unfold addTransaction.
    destruct user as [u|]; cbn [fst snd app].
    + repeat split; try (intros; cbn [In]; intuition discriminate).
      exists message. cbn [In]. auto.
    + repeat split; try (intros; cbn [In]; intuition discriminate).
      exists "User not authenticated"%string. cbn [In]. auto.
  - intros user message t Hf r. subst r. unfold deleteTransaction.
    rewrite Hf. cbn [fst snd].
    repeat split; intros; cbn [In]; intuition discriminate.
Qed.

Lemma failed_calls_change_nothing_witness :
  fst (deleteTransaction (Some "permission denied"%string) (Some "user-1"%string)
         HookExamples.loaded "2")
  = HookExamples.loaded.
Proof.
  refine (proj1 (proj2 (proj2 (failed_calls_change_nothing
                                 HookExamples.loaded HookExamples.lunch "2"))
                   (Some "user-1"%string) "permission denied"%string
                   HookExamples.groceries _)).
  reflexivity.
Defined.

Lemma setBudgets_spent_frame (c : string) (s : JS.number) (bs : list Budget) :
  map (fun b => (b_id b, b_category b, b_limit b, b_period b, b_createdAt b))
      (setBudgets_spent c s bs)
  = map (fun b => (b_id b, b_category b, b_limit b, b_period b, b_createdAt b)) bs
  /\ forall b, In b bs -> b_category b <> c -> In b (setBudgets_spent c s bs).
Proof.
  unfold setBudgets_spent. split.
  - rewrite map_map. apply map_ext. intro b.
    destruct (String.eqb (b_category b) c); reflexivity.
  - intros b Hb Hne. apply in_map_iff. exists b. split; [|exact Hb].
    rewrite (proj2 (String.eqb_neq _ _) Hne). reflexivity.
Qed.

(** X17.  Adding or deleting a transaction touches nothing of a budget
    but its [spent]: the budgets keep their number, order, ids,
    categories, limits and periods, and a budget of any other category
    than the transaction's is left exactly as it was. *)
Theorem transactions_only_move_spent
    (user : option string) (st : state) :
  (forall reply transaction,
      let st' := fst (addTransaction user reply st transaction) in
      map (fun b => (b_id b, b_category b, b_limit b, b_period b, b_createdAt b))
          (budgets st')
      = map (fun b => (b_id b, b_category b, b_limit b, b_period b, b_createdAt b))
            (budgets st)
      /\ forall b, In b (budgets st) -> b_category b <> n_category transaction ->
                   In b (budgets st'))
  /\ (forall delete_error id,
        let st' := fst (deleteTransaction delete_error user st id) in
        map (fun b => (b_id b, b_category b, b_limit b, b_period b, b_createdAt b))
            (budgets st')
        = map (fun b => (b_id b, b_category b, b_limit b, b_period b, b_createdAt b))
              (budgets st)
        /\ forall b t, In b (budgets st) ->
                       find_transaction id (transactions st) = Some t ->
                       b_category b <> tx_category t ->
                       In b (budgets st')).
Proof.
  split.
  - intros reply transaction st'. subst st'. unfold addTransaction.
    destruct user as [u|]; [|cbn [fst]; auto].
    destruct reply as [m|data]; [cbn [fst]; auto|].
    destruct (String.eqb (n_type transaction) "expense"); [|cbn [fst budgets]; auto].
    destruct (find_budget (n_category transaction) (budgets st));
      cbn [fst budgets]; [|auto].
    apply setBudgets_spent_frame.
  - intros delete_error id st'. subst st'. unfold deleteTransaction.
    destruct (find_transaction id (transactions st)) as [t|]; [|cbn [fst]; auto].
    destruct delete_error; [cbn [fst]; auto|].
    destruct (String.eqb (tx_type t) "expense"); [|cbn [fst budgets]; auto].
    destruct user; [|cbn [fst budgets]; auto].
    destruct (find_budget (tx_category t) (budgets st));
      cbn [fst budgets]; [|auto].
    destruct (setBudgets_spent_frame (tx_category t)
                (JS.Math_max JS.zero (JS.sub (b_spent b) (tx_amount t)))
                (budgets st)) as [F1 F2].
    split; [exact F1|].
    intros b0 t0 Hb Ht Hne. inversion Ht; subst t0. auto.
Qed.

End HookOutcomes.

(* ================================================================== *)
(** ** Goals and budget edits *)

Section GoalsAndBudgets.

Import Hook.




(** X20.  Editing or deleting a budget never rewrites what was spent: an
    update that carries no [spent] (the page sends category, limit and
    period) leaves every budget's [spent] and the transaction list as
    they were, also when it moves the budget to another category; a
    delete that the store accepts removes exactly the budgets with that
    id and no transaction, and a refused update or delete changes
    nothing. *)
Theorem budget_edits_keep_spent (st : state) (id : string) :
  (forall update_error updates,
      Ledger.bu_spent updates = None ->
      let st' := fst (Ledger.updateBudget update_error st id updates) in
      map b_spent (budgets st') = map b_spent (budgets st)
      /\ transactions st' = transactions st)
  /\ (let st' := fst (Ledger.deleteBudget None st id) in
      transactions st' = transactions st
      /\ forall b, In b (budgets st') <-> In b (budgets st) /\ b_id b <> id)
  /\ (forall message updates,
        fst (Ledger.updateBudget (Some message) st id updates) = st
        /\ fst (Ledger.deleteBudget (Some message) st id) = st).
Proof.
  split; [|split].
  - intros update_error updates Hs st'. subst st'. unfold Ledger.updateBudget.
    destruct update_error; cbn [fst budgets transactions]; [auto|].
    split; [|reflexivity].
    rewrite map_map. apply map_ext. intro b.
    destruct (String.eqb (b_id b) id); [|reflexivity].
    unfold Ledger.merge_budget. cbn [b_spent]. rewrite Hs. reflexivity.
  - cbn [Ledger.deleteBudget fst budgets transactions].
    split; [reflexivity|]. intro b. rewrite filter_In.
    rewrite negb_true_iff, String.eqb_neq. tauto.
  - intros message updates. split; reflexivity.
Qed.

Lemma budget_edits_keep_spent_witness :
  map b_spent
    (budgets
       (fst (Ledger.updateBudget None HookExamples.loaded "1"
               (Ledger.mkBudgetUpdates None (Some "Shopping"%string)
                  (Some (JS.of_Z 900)) None (Some "weekly"%string) None))))
  = [JS.of_Z 500].
Proof.
  refine (eq_trans
            (proj1 (proj1 (budget_edits_keep_spent HookExamples.loaded "1")
                      None
                      (Ledger.mkBudgetUpdates None (Some "Shopping"%string)
                         (Some (JS.of_Z 900)) None (Some "weekly"%string) None)
                      eq_refl))
            _).
  reflexivity.
Defined.

End GoalsAndBudgets.

(* ================================================================== *)
(** ** Importing a file of transactions *)

Section ImportFacts.

Import Hook.
Import Importing.

Variable Number_of_string : string -> JS.number.
Variable stringify : ImportedTransaction -> string.
Variable type_error_message : string.

Lemma accepted_add (reply : nat -> option string) (from n m : nat) :
  accepted reply from (n + m)
  = (accepted reply from n + accepted reply (from + n) m)%nat.
Proof.
  unfold accepted. rewrite seq_app, filter_app, length_app. reflexivity.
Qed.

Lemma eligible_records_cons
    (loaded : list Transaction) (entry : option ImportedTransaction)
    (rest : list (option ImportedTransaction)) :
  eligible_records Number_of_string loaded (entry :: rest)
  = eligible_records Number_of_string loaded [entry]
    ++ eligible_records Number_of_string loaded rest.
Proof.
  cbn [eligible_records].
  destruct (eligible Number_of_string loaded entry); reflexivity.
Qed.

(** One turn of the loop. *)
Lemma import_one_turn
    (user_id : string) (loaded : list Transaction) (reply : nat -> option string)
    (p0 : progress) (entry : option ImportedTransaction) :
  let p := import_one Number_of_string stringify type_error_message
             user_id loaded reply p0 entry in
  (imported (result p) + skipped (result p)
   = imported (result p0) + skipped (result p0) + 1)%nat
  /\ (List.length (errors (result p)) + skipped (result p0)
      <= List.length (errors (result p0)) + skipped (result p))%nat
  /\ calls p
     = calls p0 ++ map (row_of Number_of_string user_id)
                       (eligible_records Number_of_string loaded [entry])
  /\ (imported (result p)
      = imported (result p0)
        + accepted reply (List.length (calls p0))
            (List.length (eligible_records Number_of_string loaded [entry])))%nat.
Proof.
  unfold import_one, accepted, eligible_records, eligible.
  destruct entry as [r|].
  - destruct (has_required_fields r); cbn [negb andb].
    + destruct (is_duplicate Number_of_string loaded r); cbn [negb].
      * cbn. rewrite ?app_nil_r. repeat split; lia.
      * destruct (reply (List.length (calls p0))) as [message|] eqn:Hr;
          cbn [result calls imported skipped errors map List.length seq filter];
          rewrite Hr; rewrite ?length_app; cbn [List.length];
          repeat split; lia.
    + cbn. rewrite ?app_nil_r, ?length_app. cbn. repeat split; lia.
  - cbn. rewrite ?app_nil_r, ?length_app. cbn. repeat split; lia.
Qed.

Lemma import_loop
    (user_id : string) (loaded : list Transaction) (reply : nat -> option string)
    (entries : list (option ImportedTransaction)) :
  forall p0,
    let p := fold_left (import_one Number_of_string stringify type_error_message
                          user_id loaded reply) entries p0 in
    (imported (result p) + skipped (result p)
     = imported (result p0) + skipped (result p0) + List.length entries)%nat
    /\ (List.length (errors (result p)) + skipped (result p0)
        <= List.length (errors (result p0)) + skipped (result p))%nat
    /\ calls p
       = calls p0 ++ map (row_of Number_of_string user_id)
                         (eligible_records Number_of_string loaded entries)
    /\ (imported (result p)
        = imported (result p0)
          + accepted reply (List.length (calls p0))
              (List.length (eligible_records Number_of_string loaded entries)))%nat.
Proof.
  induction entries as [|entry rest IH]; intro p0.
  - cbn. rewrite app_nil_r. repeat split; lia.
  - cbn [fold_left].
    destruct (import_one_turn user_id loaded reply p0 entry) as (S1 & S2 & S3 & S4).
    cbv zeta in S1, S2, S3, S4.
    remember (import_one Number_of_string stringify type_error_message
                user_id loaded reply p0 entry) as p1 eqn:Ep1.
    destruct (IH p1) as (Hc & He & Hcalls & Hi). cbv zeta in *.
    remember (fold_left (import_one Number_of_string stringify type_error_message
                           user_id loaded reply) rest p1) as p eqn:Ep.
    rewrite (eligible_records_cons loaded entry rest).
    rewrite map_app, length_app, accepted_add, app_assoc, <- S3.
    assert (L : List.length (calls p1)
                = (List.length (calls p0)
                   + List.length (eligible_records Number_of_string loaded [entry]))%nat)
      by (rewrite S3, length_app, length_map; reflexivity).
    rewrite <- L. cbn [List.length].
    repeat split; try lia. exact Hcalls.
Qed.

(** X21.  An import accounts for every record of the file exactly once:
    imported plus skipped is the number of records, there is at most one
    message per skipped record, and the hook's state changes only by
    taking over the re-fetched transaction list after at least one record
    was imported; the budgets are not touched by an import.  Without a
    session the import fails before it looks at any record. *)
Theorem import_accounts_for_every_record
    (reply : nat -> option string) (reload : option (list Transaction))
    (st : state) (entries : list (option ImportedTransaction)) :
  importTransactions Number_of_string stringify type_error_message
    None reply reload st entries
  = inl "Import failed: User not authenticated"%string
  /\ forall user_id,
      exists st' res rows,
        importTransactions Number_of_string stringify type_error_message
          (Some user_id) reply reload st entries
        = inr (st', res, rows)
        /\ (imported res + skipped res = List.length entries)%nat
        /\ (List.length (errors res) <= skipped res)%nat
        /\ (imported res <= List.length rows)%nat
        /\ budgets st' = budgets st
        /\ (imported res = 0%nat -> st' = st)
        /\ (forall ts, (0 < imported res)%nat -> reload = Some ts ->
                       transactions st' = ts).
Proof.
  split; [reflexivity|]. intro user_id.
  unfold importTransactions.
  destruct (import_loop user_id (transactions st) reply entries (start))
    as (Hc & He & Hcalls & Hi).
  cbv zeta in *.
  set (p := fold_left (import_one Number_of_string stringify type_error_message user_id (transactions st) reply) entries start) in *.
  cbn [start result calls imported skipped errors List.length app] in *.
  eexists _, (result p), (calls p). split; [reflexivity|].
  split; [lia|]. split; [lia|]. split.
  - rewrite Hcalls, length_map, Hi. unfold accepted.
    pose proof (filter_length_le
                  (fun k => match reply k with None => true | Some _ => false end)
                  (seq 0 (List.length (eligible_records Number_of_string (transactions st) entries)))) as L.
    rewrite length_seq in L. exact L.
  - split; [|split].
    + destruct (0 <? imported (result p))%nat; [|reflexivity].
      destruct reload; reflexivity.
    + intro H0. rewrite H0. reflexivity.
    + intros ts Hpos ->.
      rewrite (proj2 (Nat.ltb_lt _ _) Hpos). reflexivity.
Qed.

(** X22.  A refused insert does not stop an import.  Whatever the store
    answers, the import tries exactly the eligible records of the file
    (all required fields present, no match among the loaded transactions)
    in file order, each once; the number imported is the number of those
    inserts the store accepted.  Records are compared with the
    transactions loaded before the import, not with each other. *)
Theorem import_tries_every_eligible_record
    (user_id : string) (reply : nat -> option string)
    (reload : option (list Transaction))
    (st : state) (entries : list (option ImportedTransaction)) :
  exists st' res rows,
    importTransactions Number_of_string stringify type_error_message
      (Some user_id) reply reload st entries
    = inr (st', res, rows)
    /\ rows = map (row_of Number_of_string user_id)
                  (eligible_records Number_of_string (transactions st) entries)
    /\ imported res
       = List.length
           (filter (fun k => match reply k with None => true | Some _ => false end)
                   (seq 0 (List.length rows)))
    /\ ((forall k, reply k = None) -> imported res = List.length rows)
    /\ ((forall k, reply k <> None) ->
        imported res = 0%nat /\ skipped res = List.length entries).
Proof.
  unfold importTransactions.
  destruct (import_loop user_id (transactions st) reply entries (start))
    as (Hc & He & Hcalls & Hi).
  cbv zeta in *.
  set (p := fold_left (import_one Number_of_string stringify type_error_message user_id (transactions st) reply) entries start) in *.
  cbn [start result calls imported skipped errors List.length app] in *.
  unfold accepted in *.
  assert (Hn : imported (result p)
               = List.length
                   (filter (fun k => match reply k with None => true | Some _ => false end)
                           (seq 0 (List.length (calls p))))).
  { rewrite Hcalls, length_map. lia. }
  eexists _, (result p), (calls p). split; [reflexivity|].
  split; [exact Hcalls|]. split; [exact Hn|]. split.
  - intro Hall. rewrite Hn.
    rewrite forallb_filter_id, length_seq; [reflexivity|].
    apply forallb_forall. intros k _. rewrite Hall. reflexivity.
  - intro Hnone.
    assert (Z0 : imported (result p) = 0%nat).
    { rewrite Hn.
      assert (E : filter (fun k => match reply k with None => true | Some _ => false end)
                         (seq 0 (List.length (calls p))) = []).
      { clear Hn. induction (seq 0 (List.length (calls p))) as [|k l IH]; [reflexivity|].
        cbn [filter]. destruct (reply k) eqn:R; [exact IH|].
        exfalso. exact (Hnone k R). }
      rewrite E. reflexivity. }
    split; [exact Z0|lia].
Qed.

End ImportFacts.

(* ================================================================== *)
(** ** The statements above on sample data *)

Section Instances.

Import Migration.

Lemma scan_inserts_are_backdated_witness :
  In (materialize Examples.parking)
     (transactions
        (fst (process_recurring_transactions 1 (mkdate 2025 8 6)
                (mkdb [materialize Examples.salary]
                      [Examples.parking; Examples.gym]))))
  /\ In (materialize Examples.salary)
        (transactions
           (fst (process_recurring_transactions 1 (mkdate 2025 8 6)
                   (mkdb [materialize Examples.salary]
                         [Examples.parking; Examples.gym])))).
Proof.
  split; [vm_compute; auto|].
  refine (proj1 (scan_inserts_are_backdated 1 (mkdate 2025 8 6)
                   (mkdb [materialize Examples.salary]
                         [Examples.parking; Examples.gym])
                   (materialize Examples.salary)) _).
  left. reflexivity.
Defined.

(** An amount of 10.005 is stored as 10.01. *)
Example toll_is_rounded :
  process_recurring_transactions 1 (mkdate 2025 8 1) (Examples.db_of [Examples.toll])
  = (mkdb [mktransaction Examples.seed_user "expense" 1001 "Transportation"
             "Toll" (mkdate 2025 8 1)]
          [set_next_occurrence Examples.toll (mkdate 2025 8 8) 1],
     Done 1).
Proof. reflexivity. Qed.

Lemma session_keeps_table_constraints_witness :
  valid_date
    (start_date
       (nth 0 (recurring_transactions (Hook.run Hook.empty_db SessionExamples.edited))
            Examples.salary)).
Proof.
  refine (proj1 (proj2 (session_keeps_table_constraints SessionExamples.edited)
                   (nth 0 (recurring_transactions
                             (Hook.run Hook.empty_db SessionExamples.edited))
                        Examples.salary) _)).
  vm_compute. left. reflexivity.
Defined.


Lemma deleted_template_is_gone_witness :
  find_template "rt-gym"%string
    (Hook.deleteRecurringTransaction "rt-parking" [Examples.parking; Examples.gym])
  = Some Examples.gym.
Proof.
  refine (eq_trans
            (proj1 (proj2 (deleted_template_is_gone "rt-parking"
                             [Examples.parking; Examples.gym]))
               "rt-gym"%string _)
            _).
  - discriminate.
  - reflexivity.
Defined.

Lemma transactions_only_move_spent_witness :
  In HookExamples.food_budget
     (Hook.budgets
        (fst (Hook.addTransaction (Some "user-1"%string)
                (inr HookExamples.lunch_row) HookExamples.loaded
                (Hook.mkNewTransaction "expense" (JS.of_Z 15) "Transportation" "Bus"
                                       "2024-01-18")))).
Proof.
  refine (proj2 (proj1 (transactions_only_move_spent (Some "user-1"%string)
                          HookExamples.loaded)
                   (inr HookExamples.lunch_row)
                   (Hook.mkNewTransaction "expense" (JS.of_Z 15) "Transportation" "Bus"
                                          "2024-01-18"))
            HookExamples.food_budget _ _).
  - left. reflexivity.
  - discriminate.
Defined.

(** A file of three records: a new one, a copy of a loaded transaction,
    and one without a date. *)
Lemma import_accounts_for_every_record_witness :
  exists st' res rows,
    Importing.importTransactions (fun _ => JS.NaN) (fun _ => "{}"%string) "null"
      (Some "user-1"%string) (fun _ => None) None HookExamples.loaded
      [Some (Importing.mkImported (Importing.js_string "expense")
               (Importing.js_number (JS.of_Z 12)) (Importing.js_string "Coffee")
               (Importing.js_string "2024-02-01") (Importing.js_string "Beans"));
       Some (Importing.mkImported (Importing.js_string "expense")
               (Importing.js_number (JS.of_Z 500)) (Importing.js_string "Food & Dining")
               (Importing.js_string "2024-01-16") (Importing.js_string "Groceries"));
       Some (Importing.mkImported (Importing.js_string "income")
               (Importing.js_number (JS.of_Z 9)) (Importing.js_string "Salary")
               Importing.js_undefined Importing.js_undefined)]
    = inr (st', res, rows)
    /\ (Importing.imported res + Importing.skipped res = 3)%nat
    /\ st' = HookExamples.loaded.
Proof.
  destruct (proj2 (import_accounts_for_every_record
                     (fun _ => JS.NaN) (fun _ => "{}"%string) "null"
                     (fun _ => None) None HookExamples.loaded
                     [Some (Importing.mkImported (Importing.js_string "expense")
                              (Importing.js_number (JS.of_Z 12))
                              (Importing.js_string "Coffee")
                              (Importing.js_string "2024-02-01")
                              (Importing.js_string "Beans"));
                      Some (Importing.mkImported (Importing.js_string "expense")
                              (Importing.js_number (JS.of_Z 500))
                              (Importing.js_string "Food & Dining")
                              (Importing.js_string "2024-01-16")
                              (Importing.js_string "Groceries"));
                      Some (Importing.mkImported (Importing.js_string "income")
                              (Importing.js_number (JS.of_Z 9))
                              (Importing.js_string "Salary")
                              Importing.js_undefined Importing.js_undefined)])
              "user-1"%string)
    as (st' & res & rows & E & Hsum & _ & _ & Hb & Hz & _).
  exists st', res, rows. split; [exact E|]. split; [exact Hsum|].
  vm_compute in E. inversion E. reflexivity.
Defined.

Lemma import_tries_every_eligible_record_witness :
  exists st' res rows,
    Importing.importTransactions (fun _ => JS.NaN) (fun _ => "{}"%string) "null"
      (Some "user-1"%string) (fun _ => Some "row violates policy"%string)
      None HookExamples.loaded
      [Some (Importing.mkImported (Importing.js_string "expense")
               (Importing.js_number (JS.of_Z 12)) (Importing.js_string "Coffee")
               (Importing.js_string "2024-02-01") (Importing.js_string "Beans"));
       None;
       Some (Importing.mkImported (Importing.js_string "expense")
               (Importing.js_number (JS.of_Z 12)) (Importing.js_string "Coffee")
               (Importing.js_string "2024-02-01") (Importing.js_string "Beans"))]
    = inr (st', res, rows)
    /\ Importing.imported res = 0%nat
    /\ List.length rows = 2%nat.
Proof.
  destruct (import_tries_every_eligible_record
              (fun _ => JS.NaN) (fun _ => "{}"%string) "null"
              "user-1" (fun _ => Some "row violates policy"%string)
              None HookExamples.loaded
              [Some (Importing.mkImported (Importing.js_string "expense")
                       (Importing.js_number (JS.of_Z 12)) (Importing.js_string "Coffee")
                       (Importing.js_string "2024-02-01") (Importing.js_string "Beans"));
               None;
               Some (Importing.mkImported (Importing.js_string "expense")
                       (Importing.js_number (JS.of_Z 12)) (Importing.js_string "Coffee")
                       (Importing.js_string "2024-02-01") (Importing.js_string "Beans"))])
    as (st' & res & rows & E & Hrows & _ & _ & Hnone).
  exists st', res, rows. split; [exact E|]. split.
  - apply Hnone. intros k H. discriminate.
  - rewrite Hrows. reflexivity.
Defined.

End Instances.
